(** * Terraform plugin of garden-service: stack reconciliation driver

    A shallow embedding of
      - [src/garden-service/src/plugins/terraform/common.ts]
        ([prepareVariables], [tfValidate], [tfValidationError],
        [getTfOutputs], [getStackStatus], [applyStack], [noAutoApplyMsg]);
      - [src/garden-service/src/plugins/terraform/commands.ts]
        ([findModule] and the handlers built by [makeModuleCommand] and
        [makeRootCommand]).

    The code is asynchronous TypeScript that talks to an external binary.
    An [await]ed call is sequential here, so it is written in a small
    monad that threads the trace of external calls made so far and one of
    three outcomes: a value, a thrown exception, or a promise that never
    settles.  The replies of the external collaborators (the versioned
    binary runner, the file system) are read from a [World], as functions
    of the trace at the time of the call.  Functions of the JavaScript
    runtime and of third-party packages ([path.resolve], [JSON.stringify],
    lodash's [startCase], [dedent], [deline], [chalk]) are the fields of a
    [Runtime]. *)

From Stdlib Require Import String Ascii List ZArith Bool Lia DecimalString.
Import ListNotations.
Local Open Scope string_scope.
Local Open Scope list_scope.

(** ** JavaScript values as decoded from JSON *)

Module JS.

#[local] Set Warnings "-register-all".

(** What [JSON.parse] can produce, plus [undefined] (the value of an absent
    property or argument).  Numbers are the integer-valued ones. *)
Inductive value : Type :=
| VUndefined
| VNull
| VBool (b : bool)
| VNum (n : Z)
| VStr (s : string)
| VArr (xs : list value)
| VObj (props : list (string * value)).

(** A plain object: its own enumerable properties, in property order. *)
Definition object : Type := list (string * value).

Definition nl : string := String "010"%char EmptyString.

(** Own property lookup in a property list. *)
Fixpoint lookup (k : string) (props : object) : option value :=
  match props with
  | [] => None
  | (k', v) :: rest => if String.eqb k k' then Some v else lookup k rest
  end.

(** [a === b] where [b] is a primitive literal.  Arrays and objects are
    compared by identity in JavaScript, so they never equal a literal. *)
Definition strictEquals (a b : value) : bool :=
  match a, b with
  | VUndefined, VUndefined => true
  | VNull, VNull => true
  | VBool x, VBool y => Bool.eqb x y
  | VNum x, VNum y => Z.eqb x y
  | VStr x, VStr y => String.eqb x y
  | _, _ => false
  end.

(** [xs.includes(s)] for a string literal [s]. *)
Definition includes (xs : list value) (s : string) : bool :=
  existsb (fun x => strictEquals x (VStr s)) xs.

(** Truthiness, as used by [||] and [!]. *)
Definition truthy (v : value) : bool :=
  match v with
  | VUndefined | VNull => false
  | VBool b => b
  | VNum n => negb (Z.eqb n 0)
  | VStr s => negb (String.eqb s "")
  | VArr _ | VObj _ => true
  end.

Definition Number_toString (n : Z) : string :=
  NilZero.string_of_int (Z.to_int n).

(** [xs.join(sep)] on an array of strings. *)
Definition join (sep : string) (xs : list string) : string :=
  String.concat sep xs.

(** String conversion of a value interpolated in a template literal.
    Decoded objects are taken to carry no [toString] or [valueOf]
    property of their own. *)
Fixpoint ToString (v : value) : string :=
  match v with
  | VUndefined => "undefined"
  | VNull => "null"
  | VBool true => "true"
  | VBool false => "false"
  | VNum n => Number_toString n
  | VStr s => s
  | VArr xs =>
      join "," (map (fun x => match x with
                              | VUndefined | VNull => ""
                              | _ => ToString x
                              end) xs)
  | VObj _ => "[object Object]"
  end.

End JS.
Import JS.

(** ** Exceptions, external calls and the trace *)

(** The detail object attached to a [ParameterError] by [findModule]. *)
Inductive ParameterDetail : Type :=
| DetailName (name : option string)
| DetailEmpty
| DetailModule (name : string) (type : string) (compatibleTypes : list string).

Inductive Exn : Type :=
| ConfigurationError (message : string) (result : value)
| ParameterError (message : string) (detail : ParameterDetail)
| PluginError (message : string) (exitCode : Z) (stderr stdout : string)
| RuntimeError (message : string) (stdout stderr : string) (code : option Z)
| TypeError
| OtherError (what : string).

(** Parameters of a call to the versioned binary runner
    ([terraform(version).json], [.exec], [.spawn], [.spawnAndWait]).
    Options the caller leaves out are [false] / [None]. *)
Record RunParams : Type := mkRun {
  args : list string;
  cwd : string;
  ignoreError : bool;
  timeout : option Z;
  tty : bool
}.

Inductive Method : Type := Json | Exec | Spawn | SpawnAndWait.

Inductive LogCall : Type :=
| LogDebug (msg : string)
| LogInfo (msg : string)
| LogVerbose (section msg status : string)
| EntrySetSuccess (msg : string) (append : bool)
| EntrySetError
| EntrySetWarn (msg : string)
| EntryWarn (symbol msg : string).

Inductive Event : Type :=
| ECall (m : Method) (version : string) (p : RunParams)
| EWriteFile (path data : string)
| ELog (l : LogCall).

Definition Trace : Type := list Event.

(** [ProcessResult]: what [exec] resolves to. *)
Record ProcessResult : Type := mkResult {
  exitCode : Z;
  stdout : string;
  stderr : string
}.

(** What a spawned child process emits, in order. *)
Inductive ProcEvent : Type :=
| StdoutData (data : string)
| StderrData (data : string)
| ProcError (e : Exn)
| ProcClose (code : option Z).

(** The handle returned by [spawn].  [proc.stdout] and [proc.stderr] may be
    null. *)
Record ChildProcess : Type := mkProc {
  has_stdout : bool;
  has_stderr : bool;
  emitted : list ProcEvent
}.

(** Replies of the collaborators, given the trace before the call. *)
Record World : Type := mkWorld {
  terraform_json : Trace -> string -> RunParams -> Exn + value;
  terraform_exec : Trace -> string -> RunParams -> Exn + ProcessResult;
  terraform_spawn : Trace -> string -> RunParams -> Exn + ChildProcess;
  terraform_spawnAndWait : Trace -> string -> RunParams -> Exn + unit;
  fs_writeFile : Trace -> string -> string -> Exn + unit
}.

Inductive Style : Type :=
| yellow | green | gray | red | white | underline | bold | whiteBold.

(** Functions of the runtime and of third-party packages.  A tagged
    template ([dedent], [deline]) receives the literal parts as they are
    written in the source (the raw strings, in which an escape such as
    backslash-n is still two characters) and the interpolated values. *)
Record Runtime : Type := mkRuntime {
  resolve : string -> string -> string;
  path_join : string -> string -> string;
  JSON_stringify : value -> string;
  startCase : value -> string;
  dedent : list string -> list string -> string;
  deline : list string -> list string -> string;
  chalk : Style -> string -> string
}.

(** ** The monad *)

Inductive Outcome (A : Type) : Type :=
| Returned (a : A)
| Threw (e : Exn)
| Pending.
Arguments Returned {A} a.
Arguments Threw {A} e.
Arguments Pending {A}.

Definition M (A : Type) : Type := Trace -> Trace * Outcome A.

Definition ret {A} (a : A) : M A := fun t => (t, Returned a).

Definition throw {A} (e : Exn) : M A := fun t => (t, Threw e).

Definition bind {A B} (m : M A) (k : A -> M B) : M B :=
  fun t =>
    match m t with
    | (t', Returned a) => k a t'
    | (t', Threw e) => (t', Threw e)
    | (t', Pending) => (t', Pending)
    end.

Declare Scope js_scope.
Delimit Scope js_scope with js.
Notation "x <- m ;; k" := (bind m (fun x => k))
  (at level 61, m at next level, right associativity) : js_scope.
Notation "m ;; k" := (bind m (fun _ => k))
  (at level 61, right associativity) : js_scope.
Local Open Scope js_scope.

(** Lifts a pure computation that may throw. *)
Definition lift {A} (r : Exn + A) : M A :=
  fun t => match r with inl e => (t, Threw e) | inr a => (t, Returned a) end.

(** Records an external call and hands back the collaborator's reply,
    which was fixed by the trace before the call. *)
Definition call {A} (e : Event) (reply : Trace -> Exn + A) : M A :=
  fun t => match reply t with
           | inl x => (t ++ [e], Threw x)
           | inr a => (t ++ [e], Returned a)
           end.

(** Awaiting a promise whose outcome is known. *)
Definition settle {A} (o : Outcome A) : M A := fun t => (t, o).

Definition log (l : LogCall) : M unit := fun t => (t ++ [ELog l], Returned tt).

(** Sequencing of pure computations that may throw. *)
Definition bindE {A B} (r : Exn + A) (k : A -> Exn + B) : Exn + B :=
  match r with
  | inl e => inl e
  | inr a => k a
  end.

Notation "'let!' x ':=' r 'in' k" := (bindE r (fun x => k))
  (at level 10, x name, r at level 100, k at level 200) : js_scope.

(** [v.k]: throws on [undefined] and [null]; gives [undefined] when [v] has
    no own property [k].  The property names read by this code
    ([valid], [diagnostics], [summary], [severity], [detail], [value]) are
    not on any prototype. *)
Definition getProp (v : value) (k : string) : Exn + value :=
  match v with
  | VUndefined | VNull => inl TypeError
  | VObj props => inr (match lookup k props with Some x => x | None => VUndefined end)
  | _ => inr VUndefined
  end.

(** [xs.map(f)] where [f] may throw: stops at the first exception. *)
Fixpoint mapE {A B} (f : A -> Exn + B) (xs : list A) : Exn + list B :=
  match xs with
  | [] => inr []
  | x :: rest =>
      match f x with
      | inl e => inl e
      | inr y => match mapE f rest with
                 | inl e => inl e
                 | inr ys => inr (y :: ys)
                 end
      end
  end.

(** [v.map(f)]: only an array has a callable [map]. *)
Definition arrayMap {B} (v : value) (f : value -> Exn + B) : Exn + list B :=
  match v with
  | VArr xs => mapE f xs
  | _ => inl TypeError
  end.

Section Terraform.

Variable rt : Runtime.
Variable W : World.

(** ** common.ts *)

Definition noAutoApplyMsg (command : string) : string :=
  chalk rt yellow
    (deline rt
       [(nl ++ "    Terraform stack is not up-to-date and ")%string;
        (" is not enabled. Please run" ++ nl ++ "    ")%string;
        (" to make sure the stack is in the intended state." ++ nl ++ "  ")%string]
       [chalk rt underline "autoApply";
        chalk rt whiteBold ("garden plugins terraform " ++ command)%string]).

(** [variables || {}] followed by [Object.entries]: [None] is an absent or
    undefined argument. *)
Definition entriesOrEmpty (variables : option object) : object :=
  match variables with
  | Some props => props
  | None => []
  end.

Definition prepareVariables (targetDir : string) (variables : option object)
  : M (list string) :=
  if Nat.eqb (length (entriesOrEmpty variables)) 0 then ret []
  else
    let path := resolve rt targetDir "garden.tfvars.json" in
    call (EWriteFile path (JSON_stringify rt (VObj (entriesOrEmpty variables))))
         (fun t => fs_writeFile W t path
                     (JSON_stringify rt (VObj (entriesOrEmpty variables)))) ;;
    ret ["-var-file"; path].

(** [provider.config] of the terraform provider. *)
Record TerraformProvider : Type := mkProvider {
  config_version : string;
  config_initRoot : option string;
  config_variables : option object
}.

Definition formatDiagnostic (d : value) : Exn + string :=
  let! severity := getProp d "severity" in
  let! summary := getProp d "summary" in
  let! detail := getProp d "detail" in
  inr (startCase rt severity ++ ": " ++ ToString summary ++ nl
         ++ (if truthy detail then ToString detail else ""))%string.

Definition tfValidationError (result : value) : Exn + Exn :=
  let! diagnostics := getProp result "diagnostics" in
  let! errors := arrayMap diagnostics formatDiagnostic in
  inr (ConfigurationError
         (dedent rt ["Failed validating Terraform configuration:\n\n"; ""]
            [join nl errors])
         result).

(** [{ log, args, ignoreError: true, cwd: root }] *)
Definition validateParams (root : string) (args : list string) : RunParams :=
  mkRun args root true None false.

(** [{ log, args: ["init"], cwd: root, timeout: 300 }] *)
Definition initParams (root : string) : RunParams :=
  mkRun ["init"] root false (Some 300%Z) false.

Definition validateCall (tfVersion root : string) (args : list string) : M value :=
  call (ECall Json tfVersion (validateParams root args))
       (fun t => terraform_json W t tfVersion (validateParams root args)).

Definition initCall (tfVersion root : string) : M ProcessResult :=
  call (ECall Exec tfVersion (initParams root))
       (fun t => terraform_exec W t tfVersion (initParams root)).

Definition tfValidate (provider : TerraformProvider) (root : string)
    (variables : option object) : M unit :=
  varArgs <- prepareVariables root variables ;;
  let args := ["validate"; "-json"] ++ varArgs in
  let tfVersion := config_version provider in
  res <- validateCall tfVersion root args ;;
  valid <- lift (getProp res "valid") ;;
  if strictEquals valid (VBool false) then
    diagnostics <- lift (getProp res "diagnostics") ;;
    reasons <- lift (arrayMap diagnostics (fun d => getProp d "summary")) ;;
    if includes reasons "Could not satisfy plugin requirements"
       || includes reasons "Module not installed"
    then
      log (LogDebug "Initializing Terraform") ;;
      initCall tfVersion root ;;
      retryRes <- validateCall tfVersion root args ;;
      retryValid <- lift (getProp retryRes "valid") ;;
      if strictEquals retryValid (VStr "false") then
        e <- lift (tfValidationError retryRes) ;;
        throw e
      else ret tt
    else
      e <- lift (tfValidationError res) ;;
      throw e
  else ret tt.

(** The rest of [tfValidate] once the first validation has come back with
    [valid: false] and diagnostics whose summaries are [reasons], call by
    call: the two branches of the source, with each awaited reply spelled
    out.  [tfValidate_invalid] below proves that this is what [tfValidate]
    computes. *)
Definition afterInvalid (tfVersion root : string) (args : list string)
    (res : value) (reasons : list value) (t : Trace) : Trace * Outcome unit :=
  if includes reasons "Could not satisfy plugin requirements"
     || includes reasons "Module not installed"
  then
    let t2 := (t ++ [ELog (LogDebug "Initializing Terraform")])
                ++ [ECall Exec tfVersion (initParams root)] in
    match terraform_exec W (t ++ [ELog (LogDebug "Initializing Terraform")])
            tfVersion (initParams root) with
    | inl e => (t2, Threw e)
    | inr _ =>
        let t3 := t2 ++ [ECall Json tfVersion (validateParams root args)] in
        match terraform_json W t2 tfVersion (validateParams root args) with
        | inl e => (t3, Threw e)
        | inr retryRes =>
            (t3,
             match getProp retryRes "valid" with
             | inl e => Threw e
             | inr retryValid =>
                 if strictEquals retryValid (VStr "false") then
                   match tfValidationError retryRes with
                   | inl e => Threw e
                   | inr e => Threw e
                   end
                 else Returned tt
             end)
        end
    end
  else
    (t, match tfValidationError res with
        | inl e => Threw e
        | inr e => Threw e
        end).

(** Keys of an array as [mapValues] sees them: "0", "1", ... *)
Definition indexed {A} (xs : list A) : list (string * A) :=
  combine (map (fun i => Number_toString (Z.of_nat i)) (seq 0 (length xs))) xs.

(** lodash's [mapValues(v, f)] with an [f] that may throw: own enumerable
    properties of an object, the indices of an array or of a string (one
    per character of the Rocq string), and nothing for the other
    primitives. *)
Definition mapValues (v : value) (f : value -> Exn + value) : Exn + object :=
  let each (kx : string * value) :=
    let! y := f (snd kx) in inr (fst kx, y) in
  match v with
  | VObj props => mapE each props
  | VArr xs => mapE each (indexed xs)
  | VStr s =>
      mapE each (indexed (map (fun c => VStr (String c EmptyString))
                              (list_ascii_of_string s)))
  | _ => inr []
  end.

(** [{ log, args: ["output", "-json"], cwd: workingDir }] *)
Definition outputParams (workingDir : string) : RunParams :=
  mkRun ["output"; "-json"] workingDir false None false.

Definition getTfOutputs (terraformVersion workingDir : string) : M object :=
  res <- call (ECall Json terraformVersion (outputParams workingDir))
              (fun t => terraform_json W t terraformVersion
                          (outputParams workingDir)) ;;
  lift (mapValues res (fun v => getProp v "value")).

Record GetTerraformStackStatusParams : Type := mkStatusParams {
  provider : TerraformProvider;
  applyCommand : string;
  autoApply : bool;
  root : string;
  variables : option object
}.

Record StackStatus : Type := mkStatus {
  ready : bool;
  outputs : object
}.

Definition planArgs (varArgs : list string) : list string :=
  ["plan"; "-detailed-exitcode"; "-input=false"; "-refresh=false"; "-lock=false"]
    ++ varArgs.

(** [{ log, ignoreError: true, args: [...], cwd: root }] *)
Definition planParams (root : string) (varArgs : list string) : RunParams :=
  mkRun (planArgs varArgs) root true None false.

Definition planCall (tfVersion root : string) (varArgs : list string)
  : M ProcessResult :=
  call (ECall Exec tfVersion (planParams root varArgs))
       (fun t => terraform_exec W t tfVersion (planParams root varArgs)).

Definition getStackStatus (p : GetTerraformStackStatusParams) : M StackStatus :=
  tfValidate (provider p) (root p) (variables p) ;;
  let tfVersion := config_version (provider p) in
  log (LogVerbose "terraform" "Running plan..." "active") ;;
  varArgs <- prepareVariables (root p) (variables p) ;;
  plan <- planCall tfVersion (root p) varArgs ;;
  if Z.eqb (exitCode plan) 0 then
    outs <- getTfOutputs tfVersion (root p) ;;
    log (EntrySetSuccess (chalk rt green "Stack up-to-date") true) ;;
    ret (mkStatus true outs)
  else if Z.eqb (exitCode plan) 1 then
    log EntrySetError ;;
    ret (mkStatus false [])
  else if Z.eqb (exitCode plan) 2 then
    log (EntrySetWarn "Not up-to-date") ;;
    if autoApply p then ret (mkStatus false [])
    else
      log (EntryWarn "warning" (noAutoApplyMsg (applyCommand p))) ;;
      outs <- getTfOutputs tfVersion (root p) ;;
      ret (mkStatus true outs)
  else
    log EntrySetError ;;
    throw (PluginError
             ("Unexpected exit code from `terraform plan`: "
                ++ Number_toString (exitCode plan))%string
             (exitCode plan) (stderr plan) (stdout plan)).

(** The promise awaited at the end of [applyStack], run over what the
    child emits once the listeners are attached.  Data is appended to the
    buffer of a stream that exists; the first "error" or "close" settles
    the promise, and what is emitted later cannot change it.  A child that
    emits neither leaves the promise pending.  (The line-by-line status
    display fed by the same streams only writes to the logger and is left
    out.) *)
Fixpoint awaitClose (proc_stdout proc_stderr : bool) (evs : list ProcEvent)
    (stdout stderr : string) : Outcome unit :=
  match evs with
  | [] => Pending
  | StdoutData data :: rest =>
      awaitClose proc_stdout proc_stderr rest
        (if proc_stdout then stdout ++ data else stdout)%string stderr
  | StderrData data :: rest =>
      awaitClose proc_stdout proc_stderr rest
        stdout (if proc_stderr then stderr ++ data else stderr)%string
  | ProcError e :: _ => Threw e
  | ProcClose code :: _ =>
      if strictEquals (match code with Some c => VNum c | None => VNull end)
                      (VNum 0)
      then Returned tt
      else Threw (RuntimeError
                    ("Error when applying Terraform stack:" ++ nl ++ stderr)%string
                    stdout stderr code)
  end.

Definition applyArgs (varArgs : list string) : list string :=
  ["apply"; "-auto-approve"; "-input=false"] ++ varArgs.

(** [{ log, args, cwd: root }] *)
Definition applyParams (root : string) (varArgs : list string) : RunParams :=
  mkRun (applyArgs varArgs) root false None false.

Definition applyStack (root : string) (variables : option object)
    (version : string) : M unit :=
  varArgs <- prepareVariables root variables ;;
  proc <- call (ECall Spawn version (applyParams root varArgs))
               (fun t => terraform_spawn W t version (applyParams root varArgs)) ;;
  log (LogInfo "→ Applying Terraform stack...") ;;
  settle (awaitClose (has_stdout proc) (has_stderr proc) (emitted proc) "" "").

(** ** commands.ts *)

Record TerraformModuleSpec : Type := mkSpec {
  spec_root : string;
  spec_variables : option object;
  spec_version : string
}.

Record Module : Type := mkModule {
  name : string;
  type : string;
  compatibleTypes : list string;
  path : string;
  spec : TerraformModuleSpec
}.

(** Modelled from the spec: [findByName] of [util/util], which is imported
    by [commands.ts] and is not among the sources.  The spec speaks of "a
    first positional argument naming a module" and of "an unknown name":
    the first module of the list whose [name] is the given one, if any. *)
Definition findByName (modules : list Module) (n : string) : option Module :=
  find (fun m => String.eqb (name m) n) modules.

(** A possibly missing string argument, as a value. *)
Definition argValue (a : option string) : value :=
  match a with
  | Some s => VStr s
  | None => VUndefined
  end.

(** [findModule(modules, name)], where [name] is [args[0]]: [arg] is that
    argument, [None] when there is none.  Past the first guard it is a
    non-empty string, [n]. *)
Definition findModule (modules : list Module) (arg : option string)
  : Exn + Module :=
  if negb (truthy (argValue arg)) then
    inl (ParameterError "The first command argument must be a module name."
           (DetailName arg))
  else
    let n := ToString (argValue arg) in
    match findByName modules n with
    | None =>
        inl (ParameterError
               (chalk rt red ("Could not find module " ++ chalk rt white n ++ "."))%string
               DetailEmpty)
    | Some module =>
        if negb (existsb (String.eqb "terraform") (compatibleTypes module)) then
          inl (ParameterError
                 (chalk rt red ("Module " ++ chalk rt white n
                                  ++ " is not a terraform module."))%string
                 (DetailModule n (type module) (compatibleTypes module)))
        else inr module
    end.

(** [{ log, args, cwd: root, tty: true }] *)
Definition passthroughParams (root : string) (args : list string) : RunParams :=
  mkRun args root false None true.

(** The handler of the command built by [makeModuleCommand commandName]. *)
Definition moduleCommandHandler (commandName : string) (args : list string)
    (modules : list Module) : M unit :=
  module <- lift (findModule modules (nth_error args 0)) ;;
  let root := path_join rt (path module) (spec_root (spec module)) in
  varArgs <- prepareVariables root (spec_variables (spec module)) ;;
  let args' := [commandName] ++ varArgs ++ skipn 1 args in
  call (ECall SpawnAndWait (spec_version (spec module))
          (passthroughParams root args'))
       (fun t => terraform_spawnAndWait W t (spec_version (spec module))
                   (passthroughParams root args')) ;;
  ret tt.

(** What the root command reads of its [ctx]. *)
Record PluginContext : Type := mkContext {
  projectRoot : string;
  ctx_provider : TerraformProvider
}.

(** [provider.config] as an object, for the detail [{ config }] of the
    error below: the fields this model carries. *)
Definition configObject (prov : TerraformProvider) : value :=
  VObj ([("version", VStr (config_version prov))]
          ++ match config_initRoot prov with
             | Some r => [("initRoot", VStr r)]
             | None => []
             end
          ++ match config_variables prov with
             | Some vars => [("variables", VObj vars)]
             | None => []
             end).

(** The handler of the command built by [makeRootCommand commandName].
    The detail object of its error is kept whole in the payload. *)
Definition rootCommandHandler (commandName : string) (ctx : PluginContext)
    (args : list string) : M unit :=
  let prov := ctx_provider ctx in
  if negb (truthy (argValue (config_initRoot prov))) then
    throw (ConfigurationError
             ("terraform provider does not have an "
                ++ chalk rt underline "initRoot" ++ " configured")%string
             (VObj [("config", configObject prov)]))
  else
    let tfRoot := path_join rt (projectRoot ctx)
                    (ToString (argValue (config_initRoot prov))) in
    varArgs <- prepareVariables tfRoot (config_variables prov) ;;
    let args' := [commandName] ++ varArgs ++ args in
    call (ECall SpawnAndWait (config_version prov) (passthroughParams tfRoot args'))
         (fun t => terraform_spawnAndWait W t (config_version prov)
                     (passthroughParams tfRoot args')) ;;
    ret tt.

End Terraform.

(** ** Observations on traces *)

Definition isInitCall (e : Event) : bool :=
  match e with
  | ECall Exec _ p =>
      match args p with
      | ["init"] => true
      | _ => false
      end
  | _ => false
  end.

Definition isOutputCall (e : Event) : bool :=
  match e with
  | ECall Json _ p =>
      match args p with
      | "output" :: _ => true
      | _ => false
      end
  | _ => false
  end.

Definition isValidateCall (e : Event) : bool :=
  match e with
  | ECall Json _ p =>
      match args p with
      | "validate" :: _ => true
      | _ => false
      end
  | _ => false
  end.

Definition isWrite (e : Event) : bool :=
  match e with
  | EWriteFile _ _ => true
  | _ => false
  end.

Definition count (f : Event -> bool) (t : Trace) : nat := length (filter f t).

Definition initCalls : Trace -> nat := count isInitCall.
Definition outputCalls : Trace -> nat := count isOutputCall.
Definition validateCalls : Trace -> nat := count isValidateCall.
Definition writes : Trace -> nat := count isWrite.

Definition isPlanCall (e : Event) : bool :=
  match e with
  | ECall Exec _ p =>
      match args p with
      | "plan" :: _ => true
      | _ => false
      end
  | _ => false
  end.

(** A call that runs [terraform apply], by whatever method. *)
Definition isApplyCall (e : Event) : bool :=
  match e with
  | ECall _ _ p =>
      match args p with
      | "apply" :: _ => true
      | _ => false
      end
  | _ => false
  end.

(** A child process started live or attached to the terminal. *)
Definition isSpawnCall (e : Event) : bool :=
  match e with
  | ECall Spawn _ _ | ECall SpawnAndWait _ _ => true
  | _ => false
  end.

Definition planCalls : Trace -> nat := count isPlanCall.
Definition applyCalls : Trace -> nat := count isApplyCall.
Definition spawnCalls : Trace -> nat := count isSpawnCall.

(** A computation that only ever adds to the trace. *)
Definition grows {A} (m : M A) : Prop :=
  forall t, exists evs, fst (m t) = t ++ evs.

(** The validator's recoverable set, as the spec words it: some diagnostic
    summary is one of the two stock phrases. *)
Definition recoverable (reasons : list value) : Prop :=
  exists r, In r reasons /\
            (r = VStr "Could not satisfy plugin requirements"
             \/ r = VStr "Module not installed").

(** [d.k] where [d] is known not to be [undefined] or [null]. *)
Definition field (d : value) (k : string) : value :=
  match getProp d k with
  | inr v => v
  | inl _ => VUndefined
  end.

(** The spec's "<Severity>: <summary>\n<detail>" for one diagnostic. *)
Definition diagnosticLine (rt : Runtime) (d : value) : string :=
  (startCase rt (field d "severity") ++ ": " ++ ToString (field d "summary")
     ++ nl ++ (if truthy (field d "detail") then ToString (field d "detail")
               else ""))%string.

(** [s] occurs in [text]. *)
Definition occursIn (s text : string) : Prop :=
  exists before after, text = (before ++ s ++ after)%string.

(** What a child wrote to one of its streams before some point. *)
Fixpoint stdoutOf (evs : list ProcEvent) : string :=
  match evs with
  | [] => ""
  | StdoutData data :: rest => (data ++ stdoutOf rest)%string
  | _ :: rest => stdoutOf rest
  end.

Fixpoint stderrOf (evs : list ProcEvent) : string :=
  match evs with
  | [] => ""
  | StderrData data :: rest => (data ++ stderrOf rest)%string
  | _ :: rest => stderrOf rest
  end.

Definition isData (e : ProcEvent) : bool :=
  match e with
  | StdoutData _ | StderrData _ => true
  | _ => false
  end.

(** [s] occurs in [text], as a test. *)
Fixpoint occursInb (s text : string) : bool :=
  String.prefix s text
  || match text with
     | EmptyString => false
     | String _ rest => occursInb s rest
     end.

(** ** The template tag [dedent] *)

(** [common.ts] imports [dedent] from [util/string], which hands on the
    package [dedent]; neither is among the sources.  This is the
    algorithm of that package (version 0.7), step by step, with the white
    space of [\s] and of [trim] taken among the ASCII characters (tab,
    line feed, vertical tab, form feed, carriage return, space). *)
Module Dedent.

Definition isSpace (c : ascii) : bool :=
  (c =? "009")%char || (c =? "010")%char || (c =? "011")%char
  || (c =? "012")%char || (c =? "013")%char || (c =? " ")%char.

(** [raw.replace(/\\\n[ \t]*/g, "")]: a backslash before a line break
    joins the lines, eating the blanks and tabs that follow. *)
Fixpoint joinSuppressed (skipping : bool) (s : string) : string :=
  match s with
  | EmptyString => EmptyString
  | String c rest =>
      if skipping && ((c =? " ")%char || (c =? "009")%char)
      then joinSuppressed true rest
      else
        match rest with
        | String d rest' =>
            if (c =? "\")%char && (d =? "010")%char
            then joinSuppressed true rest'
            else String c (joinSuppressed false rest)
        | EmptyString => String c EmptyString
        end
  end.

(** [.replace(/\\`/g, "`")] *)
Fixpoint unescapeBackticks (s : string) : string :=
  match s with
  | EmptyString => EmptyString
  | String c rest =>
      match rest with
      | String d rest' =>
          if (c =? "\")%char && (d =? "`")%char
          then String "`" (unescapeBackticks rest')
          else String c (unescapeBackticks rest)
      | EmptyString => String c EmptyString
      end
  end.

(** The first loop: each raw part, cleaned, followed by the value of the
    same index when there is one. *)
Fixpoint interpolate (raw values : list string) : string :=
  match raw with
  | [] => ""
  | r :: raw' =>
      let part := unescapeBackticks (joinSuppressed false r) in
      match values with
      | v :: values' => (part ++ v ++ interpolate raw' values')%string
      | [] => (part ++ interpolate raw' [])%string
      end
  end.

(** [result.split("\n")], on line feeds. *)
Fixpoint splitLines (s : string) : list string :=
  match s with
  | EmptyString => [""]
  | String c rest =>
      if (c =? "010")%char then "" :: splitLines rest
      else
        match splitLines rest with
        | l :: ls => String c l :: ls
        | [] => [String c EmptyString]
        end
  end.

Fixpoint leading (s : string) : nat :=
  match s with
  | String c rest => if isSpace c then S (leading rest) else 0
  | EmptyString => 0
  end.

(** [l.match(/^(\s+)\S+/)]: the length of the white space a line starts
    with, when there is some and something else follows it. *)
Definition indentOf (line : string) : option nat :=
  let k := leading line in
  if Nat.ltb 0 k && Nat.ltb k (String.length line) then Some k else None.

(** The [forEach] that finds the smallest indentation. *)
Definition mindent (lines : list string) : option nat :=
  fold_left
    (fun acc line =>
       match indentOf line with
       | Some indent =>
           match acc with
           | None => Some indent
           | Some m => Some (Nat.min m indent)
           end
       | None => acc
       end)
    lines None.

(** [l.slice(n)] *)
Fixpoint slice (n : nat) (s : string) : string :=
  match n, s with
  | 0, _ => s
  | S n', String _ rest => slice n' rest
  | S _, EmptyString => EmptyString
  end.

(** [l[0] === " " ? l.slice(mindent) : l] *)
Definition stripLine (m : nat) (line : string) : string :=
  match line with
  | String " " _ => slice m line
  | _ => line
  end.

Fixpoint trimStart (s : string) : string :=
  match s with
  | String c rest => if isSpace c then trimStart rest else s
  | EmptyString => EmptyString
  end.

Fixpoint trimEnd (s : string) : string :=
  match s with
  | String c rest =>
      match trimEnd rest with
      | EmptyString => if isSpace c then EmptyString else String c EmptyString
      | rest' => String c rest'
      end
  | EmptyString => EmptyString
  end.

Definition trim (s : string) : string := trimEnd (trimStart s).

(** [.replace(/\\n/g, "\n")]: the escaped line breaks of the literal
    parts become line breaks only now, after the trimming. *)
Fixpoint unescapeNewlines (s : string) : string :=
  match s with
  | EmptyString => EmptyString
  | String c rest =>
      match rest with
      | String d rest' =>
          if (c =? "\")%char && (d =? "n")%char
          then String "010" (unescapeNewlines rest')
          else String c (unescapeNewlines rest)
      | EmptyString => String c EmptyString
      end
  end.


Definition dedent (raw values : list string) : string :=
  let result := interpolate raw values in
  let lines := splitLines result in
  let stripped :=
    match mindent lines with
    | Some m => join nl (map (stripLine m) lines)
    | None => result
    end in
  unescapeNewlines (trim stripped).

End Dedent.

(** ** A runtime and worlds to run the definitions on *)

Module Sample.

Definition dq : string := String "034"%char EmptyString.

(** JSON text of a value, without string escaping: enough for the keys and
    values of the examples below. *)
Fixpoint stringify (v : value) : string :=
  match v with
  | VUndefined | VNull => "null"
  | VBool true => "true"
  | VBool false => "false"
  | VNum n => Number_toString n
  | VStr s => (dq ++ s ++ dq)%string
  | VArr xs => ("[" ++ join "," (map stringify xs) ++ "]")%string
  | VObj props =>
      ("{" ++ join "," (map (fun kv => (dq ++ fst kv ++ dq ++ ":" ++ stringify (snd kv))%string)
                            props) ++ "}")%string
  end.

Definition interleave (parts values : list string) : string :=
  String.concat "" (flat_map (fun pv => [fst pv; snd pv])
                             (combine parts (values ++ [""]))).

(** No styling, paths joined with a slash, the package's [dedent], a
    [deline] that fills the template in as it is, and a [startCase] that
    only knows the severities of terraform. *)
Definition runtime : Runtime :=
  mkRuntime
    (fun dir file => (dir ++ "/" ++ file)%string)
    (fun a b => (a ++ "/" ++ b)%string)
    stringify
    (fun v => match v with
              | VStr "error" => "Error"
              | VStr "warning" => "Warning"
              | _ => ToString v
              end)
    Dedent.dedent
    interleave
    (fun _ s => s).

Definition jsonCalls (t : Trace) : nat :=
  count (fun e => match e with ECall Json _ _ => true | _ => false end) t.

Definition execCalls (t : Trace) : nat :=
  count (fun e => match e with ECall Exec _ _ => true | _ => false end) t.

(** A world that answers the n-th [json] call with the n-th document and
    the n-th [exec] call with the n-th result; writes succeed. *)
Definition scripted (jsons : list value) (execs : list ProcessResult)
    (proc : ChildProcess) : World :=
  mkWorld
    (fun t _ _ => match nth_error jsons (jsonCalls t) with
                  | Some v => inr v
                  | None => inl (OtherError "json")
                  end)
    (fun t _ _ => match nth_error execs (execCalls t) with
                  | Some r => inr r
                  | None => inl (OtherError "exec")
                  end)
    (fun _ _ _ => inr proc)
    (fun _ _ _ => inr tt)
    (fun _ _ _ => inr tt).

(** A world that answers by the command alone: [validate] says valid,
    [output] gives [outs], [plan] exits with [code]. *)
Definition steady (outs : value) (code : Z) : World :=
  mkWorld
    (fun _ _ p => match args p with
                  | "output" :: _ => inr outs
                  | _ => inr (VObj [("valid", VBool true); ("diagnostics", VArr [])])
                  end)
    (fun _ _ _ => inr (mkResult code "plan out" "plan err"))
    (fun _ _ _ => inr (mkProc true true []))
    (fun _ _ _ => inr tt)
    (fun _ _ _ => inr tt).

Definition diagnostic (severity summary : string) : value :=
  VObj [("severity", VStr severity); ("summary", VStr summary)].

Definition invalid (ds : list value) : value :=
  VObj [("valid", VBool false); ("diagnostics", VArr ds)].

Definition provider : TerraformProvider := mkProvider "0.12.7" None None.

Definition idle : ChildProcess := mkProc true true [].

(** The validation document of a stack whose modules are not installed. *)
Definition notInstalled : value :=
  invalid [diagnostic "error" "Module not installed"].

(** [validate] says "Module not installed", [init] succeeds, and the
    retried [validate] says the same again. *)
Definition stillInvalid : World :=
  scripted [notInstalled; notInstalled] [mkResult 0 "" ""] idle.

Definition otherError : value :=
  invalid [diagnostic "error" "Some other error";
           VObj [("severity", VStr "warning"); ("summary", VStr "Deprecated");
                 ("detail", VStr "Use count instead.")]].

Definition unrecoverable : World := scripted [otherError] [] idle.

(** The output document of the spec's example. *)
Definition outs : value :=
  VObj [("x", VObj [("value", VNum 1)]); ("y", VObj [("value", VStr "s")])].

Definition params (autoApply : bool) : GetTerraformStackStatusParams :=
  mkStatusParams provider "apply-root" autoApply "/stack" None.

(** A child that writes to both streams, closes with [code], and whose
    stdout still delivers a chunk afterwards. *)
Definition chatty (code : option Z) : ChildProcess :=
  mkProc true true
    [StdoutData "a"; StderrData "e1"; StdoutData "b"; ProcClose code;
     StdoutData "late"].

Definition spawning (proc : ChildProcess) : World := scripted [] [] proc.

(** [validate] says "Module not installed" and [init] fails. *)
Definition initFails : World := scripted [notInstalled] [] idle.

(** A validation document without diagnostics. *)
Definition noDiagnostics : value := VObj [("valid", VBool false)].

Definition malformed : World := scripted [noDiagnostics] [] idle.

(** A child whose spawn fails after some output, and one that only ever
    writes. *)
Definition failing : ChildProcess :=
  mkProc true true
    [StdoutData "a"; ProcError (OtherError "ENOENT"); ProcClose (Some 0%Z)].

Definition silent : ChildProcess :=
  mkProc true false [StdoutData "a"; StderrData "dropped"].

Definition infra : Module :=
  mkModule "infra" "terraform" ["terraform"] "/p/infra"
    (mkSpec "tf" (Some [("region", VStr "eu")]) "0.12.7").

Definition rooted : PluginContext :=
  mkContext "/p" (mkProvider "0.12.7" (Some "tf") None).



(** [validate] says valid, the plan exits with [code], and the output
    command fails. *)
Definition outputFails (code : Z) : World :=
  mkWorld
    (fun _ _ p => match args p with
                  | "output" :: _ => inl (OtherError "output")
                  | _ => inr (VObj [("valid", VBool true); ("diagnostics", VArr [])])
                  end)
    (fun _ _ _ => inr (mkResult code "plan out" "plan err"))
    (fun _ _ _ => inr idle)
    (fun _ _ _ => inr tt)
    (fun _ _ _ => inr tt).

End Sample.

(** * Properties *)

Ltac run := unfold bind, call, lift, log, ret, throw, settle.

(** Case analysis on the next reply (or fallible step) the goal waits for. *)
Ltac reply :=
  match goal with
  | |- context [match ?r with inl _ => _ | inr _ => _ end] =>
      let e := fresh "e" in
      let a := fresh "a" in
      let E := fresh "E" in
      destruct r as [e|a] eqn:E
  end.

Lemma append_nil_r (s : string) : (s ++ "")%string = s.
Proof. induction s as [|c s IH]; simpl; [reflexivity | now rewrite IH]. Qed.

Lemma append_assoc (a b c : string) :
  ((a ++ b) ++ c)%string = (a ++ (b ++ c))%string.
Proof. induction a as [|x a IH]; simpl; [reflexivity | now rewrite IH]. Qed.

Lemma count_app (f : Event -> bool) (t u : Trace) :
  count f (t ++ u) = count f t + count f u.
Proof. unfold count. now rewrite filter_app, length_app. Qed.

Lemma count_snoc (f : Event -> bool) (t : Trace) (e : Event) :
  count f (t ++ [e]) = count f t + (if f e then 1 else 0).
Proof. rewrite count_app. unfold count at 2. simpl. now destruct (f e). Qed.

Lemma snoc_neq {A} (l : list A) (x : A) : l ++ [x] <> l.
Proof.
  intros H. apply (f_equal (@length A)) in H.
  rewrite length_app in H. simpl in H. lia.
Qed.

(** ** Occurrence, as a test *)

Lemma prefix_spec (s t : string) :
  String.prefix s t = true <-> exists r, t = (s ++ r)%string.
Proof.
  revert t. induction s as [|c s IH]; intros t.
  - destruct t; simpl; (split; [intros _; eexists; reflexivity | reflexivity]).
  - destruct t as [|d t]; simpl.
    + split; [discriminate | intros [r Hr]; discriminate].
    + destruct (ascii_dec c d) as [->|Hne].
      * rewrite IH. split; intros [r Hr]; exists r; congruence.
      * split; [discriminate | intros [r Hr]; congruence].
Qed.

Lemma occursInb_spec (s text : string) :
  occursInb s text = true <-> occursIn s text.
Proof.
  unfold occursIn. split.
  - induction text as [|c text IH]; cbn [occursInb]; rewrite orb_true_iff.
    + intros [H|H]; [|discriminate].
      apply prefix_spec in H as [r Hr]. now exists "", r.
    + intros [H|H].
      * apply prefix_spec in H as [r Hr]. now exists "", r.
      * destruct (IH H) as [before [after Heq]].
        exists (String c before), after. simpl. now rewrite Heq.
  - intros [before [after Heq]]. revert text Heq.
    induction before as [|c before IH]; intros text Heq; subst text.
    + cbn [append]. destruct (s ++ after)%string eqn:E; cbn [occursInb];
        rewrite orb_true_iff; left; apply prefix_spec; exists after; now rewrite E.
    + cbn [append occursInb]. rewrite orb_true_iff. right. now apply IH.
Qed.

(** ** The template tag on a text without indentation *)








Section Properties.

Variable rt : Runtime.
Variable W : World.

(** ** The variable materializer *)

Lemma prepareVariables_none (root : string) (v : option object) (t : Trace) :
  entriesOrEmpty v = [] ->
  prepareVariables rt W root v t = (t, Returned []).
Proof. intros H. unfold prepareVariables. now rewrite H. Qed.

Lemma prepareVariables_some (root : string) (v : option object) (t : Trace) :
  entriesOrEmpty v <> [] ->
  prepareVariables rt W root v t =
    (t ++ [EWriteFile (resolve rt root "garden.tfvars.json")
             (JSON_stringify rt (VObj (entriesOrEmpty v)))],
     match fs_writeFile W t (resolve rt root "garden.tfvars.json")
             (JSON_stringify rt (VObj (entriesOrEmpty v))) with
     | inl e => Threw e
     | inr _ => Returned ["-var-file"; resolve rt root "garden.tfvars.json"]
     end).
Proof.
  intros H. unfold prepareVariables.
  destruct (entriesOrEmpty v) as [|kv rest]; [congruence|].
  simpl. run.
  now destruct (fs_writeFile W t _ _).
Qed.

(** Whatever it does, [prepareVariables] only ever adds file writes to the
    trace. *)
Lemma prepareVariables_trace (root : string) (v : option object) (t : Trace) :
  exists ws, fst (prepareVariables rt W root v t) = t ++ ws
             /\ forallb isWrite ws = true.
Proof.
  destruct (entriesOrEmpty v) as [|kv rest] eqn:E.
  - rewrite prepareVariables_none by assumption.
    exists []. simpl. now rewrite app_nil_r.
  - rewrite prepareVariables_some by congruence.
    eexists [_]. split; reflexivity.
Qed.

(** C5: for every variable map [V], [prepareVariables root V] returns the
    empty argument list without touching the trace if and only if [V] is
    empty, and it performs no file write if and only if [V] is empty.  For
    a non-empty [V] it makes exactly one external call, the write of
    [JSON.stringify(V)] to [resolve(root, "garden.tfvars.json")], and once
    that write is done it returns ["-var-file"; path] (a failing write
    raises the write's own error instead). *)
Theorem prepareVariables_spec (root : string) (V : object) (t : Trace) :
  let path := resolve rt root "garden.tfvars.json" in
  let data := JSON_stringify rt (VObj V) in
  let r := prepareVariables rt W root (Some V) t in
  (r = (t, Returned []) <-> V = []) /\
  (writes (fst r) = writes t <-> V = []) /\
  (V <> [] ->
   fst r = t ++ [EWriteFile path data] /\
   snd r = match fs_writeFile W t path data with
           | inl e => Threw e
           | inr _ => Returned ["-var-file"; path]
           end).
Proof.
  cbv zeta. destruct V as [|kv rest].
  - rewrite prepareVariables_none by reflexivity. simpl.
    repeat split; intros; congruence.
  - rewrite prepareVariables_some by (simpl; congruence). simpl.
    repeat split; intros H; try congruence.
    + inversion H as [[Ht Hr]]. now apply snoc_neq in Ht.
    + unfold writes in H. rewrite count_snoc in H. simpl in H. lia.
Qed.

(** C9: with an undefined or absent [variables] argument
    [prepareVariables] does what it does for the empty map: it returns the
    empty argument list and leaves the trace as it was, so nothing is
    written. *)
Theorem prepareVariables_undefined (root : string) (t : Trace) :
  prepareVariables rt W root None t = (t, Returned [])
  /\ prepareVariables rt W root None t = prepareVariables rt W root (Some []) t
  /\ writes (fst (prepareVariables rt W root None t)) = writes t.
Proof. repeat split. Qed.

(** ** The validator *)

Lemma strictEquals_str (v : value) (s : string) :
  strictEquals v (VStr s) = true <-> v = VStr s.
Proof.
  destruct v; simpl; try (split; [discriminate | congruence]).
  rewrite String.eqb_eq. split; congruence.
Qed.

Lemma includes_In (xs : list value) (s : string) :
  includes xs s = true <-> In (VStr s) xs.
Proof.
  unfold includes. rewrite existsb_exists. split.
  - intros [x [Hin Heq]]. apply strictEquals_str in Heq. now subst.
  - intros Hin. exists (VStr s). split; [assumption|]. now apply strictEquals_str.
Qed.

Lemma recoverable_includes (reasons : list value) :
  includes reasons "Could not satisfy plugin requirements"
  || includes reasons "Module not installed" = true
  <-> recoverable reasons.
Proof.
  rewrite orb_true_iff, !includes_In. unfold recoverable. split.
  - intros [H|H]; eexists; split; eauto.
  - intros [r [Hin [->| ->]]]; auto.
Qed.



(** The line of a diagnostic whose fields are strings, with and without a
    detail. *)
Lemma diagnosticLine_detailed (d : value) (severity summary detail : string) :
  getProp d "severity" = inr (VStr severity) ->
  getProp d "summary" = inr (VStr summary) ->
  getProp d "detail" = inr (VStr detail) ->
  diagnosticLine rt d
  = (startCase rt (VStr severity) ++ ": " ++ summary ++ nl ++ detail)%string.
Proof.
  intros Hsev Hsum Hdet. unfold diagnosticLine, field.
  rewrite Hsev, Hsum, Hdet. simpl.
  destruct (String.eqb_spec detail "") as [->|_]; reflexivity.
Qed.

Lemma diagnosticLine_plain (d : value) (severity summary : string) :
  getProp d "severity" = inr (VStr severity) ->
  getProp d "summary" = inr (VStr summary) ->
  getProp d "detail" = inr VUndefined ->
  diagnosticLine rt d
  = (startCase rt (VStr severity) ++ ": " ++ summary ++ nl)%string.
Proof.
  intros Hsev Hsum Hdet. unfold diagnosticLine, field.
  now rewrite Hsev, Hsum, Hdet.
Qed.


Lemma writes_count_zero (f : Event -> bool) (ws : Trace) :
  (forall e, isWrite e = true -> f e = false) ->
  forallb isWrite ws = true -> count f ws = 0.
Proof.
  intros Hf. unfold count. induction ws as [|e ws IH]; [reflexivity|].
  simpl. intros H. apply andb_true_iff in H as [He Hws].
  rewrite (Hf e He). auto.
Qed.

Lemma prepareVariables_count (f : Event -> bool) (root : string)
    (v : option object) (t t' : Trace) (o : Outcome (list string)) :
  (forall e, isWrite e = true -> f e = false) ->
  prepareVariables rt W root v t = (t', o) ->
  count f t' = count f t.
Proof.
  intros Hf H. destruct (prepareVariables_trace root v t) as [ws [Ht Hws]].
  rewrite H in Ht. simpl in Ht. subst t'.
  rewrite count_app, (writes_count_zero f ws Hf Hws). lia.
Qed.

Lemma write_not_init (e : Event) : isWrite e = true -> isInitCall e = false.
Proof. now destruct e. Qed.

Lemma write_not_output (e : Event) : isWrite e = true -> isOutputCall e = false.
Proof. now destruct e. Qed.

Lemma write_not_validate (e : Event) : isWrite e = true -> isValidateCall e = false.
Proof. now destruct e. Qed.

Section InvalidResult.

Variable provider : TerraformProvider.
Variable root : string.
Variable variables : option object.
Variables t0 t1 : Trace.
Variable varArgs : list string.
Variable res : value.
Variables ds reasons : list value.

Hypothesis Hvars :
  prepareVariables rt W root variables t0 = (t1, Returned varArgs).
Hypothesis Hres :
  terraform_json W t1 (config_version provider)
    (validateParams root (["validate"; "-json"] ++ varArgs)) = inr res.
Hypothesis Hvalid : getProp res "valid" = inr (VBool false).
Hypothesis Hdiag : getProp res "diagnostics" = inr (VArr ds).
Hypothesis Hsum : mapE (fun d => getProp d "summary") ds = inr reasons.

Lemma tfValidate_invalid :
  tfValidate rt W provider root variables t0 =
    afterInvalid rt W (config_version provider) root (["validate"; "-json"] ++ varArgs)
      res reasons
      (t1 ++ [ECall Json (config_version provider)
                (validateParams root (["validate"; "-json"] ++ varArgs))]).
Proof.
  unfold tfValidate, afterInvalid, validateCall, initCall. run.
  rewrite Hvars. cbv zeta. rewrite Hres, Hvalid. cbn [strictEquals Bool.eqb].
  rewrite Hdiag. unfold arrayMap. rewrite Hsum.
  destruct (includes reasons _ || includes reasons _).
  - repeat (reply; try reflexivity);
      destruct (strictEquals _ (VStr "false")); reflexivity.
  - now reply.
Qed.


Lemma validated_initCalls :
  initCalls (t1 ++ [ECall Json (config_version provider)
                      (validateParams root (["validate"; "-json"] ++ varArgs))])
  = initCalls t0.
Proof.
  unfold initCalls. rewrite count_snoc. simpl.
  rewrite (prepareVariables_count _ _ _ _ _ _ write_not_init Hvars). lia.
Qed.

Lemma validated_validateCalls :
  validateCalls (t1 ++ [ECall Json (config_version provider)
                          (validateParams root (["validate"; "-json"] ++ varArgs))])
  = S (validateCalls t0).
Proof.
  unfold validateCalls. rewrite count_snoc. simpl.
  rewrite (prepareVariables_count _ _ _ _ _ _ write_not_validate Hvars). lia.
Qed.


(** C10: for a first validation that reports [valid: false], the [init]
    recovery runs if and only if some diagnostic summary is, as a string
    value, exactly "Could not satisfy plugin requirements" or exactly
    "Module not installed"; and it runs at most once. *)
Theorem init_iff_recoverable :
  let final := fst (tfValidate rt W provider root variables t0) in
  (initCalls t0 < initCalls final <-> recoverable reasons)
  /\ initCalls final <= S (initCalls t0).
Proof.
  cbv zeta. rewrite tfValidate_invalid. unfold afterInvalid.
  pose proof validated_initCalls as Hv.
  set (validated := t1 ++ [_]) in *. clearbody validated.
  destruct (includes reasons _ || includes reasons _) eqn:E.
  - assert (Hrec : recoverable reasons) by now apply recoverable_includes.
    cbv zeta. repeat reply; cbn [fst]; unfold initCalls in *;
      rewrite ?count_snoc, Hv; cbn [isInitCall initParams validateParams args];
      (split; [split; [intros _; exact Hrec | intros _; lia] | lia]).
  - assert (Hrec : ~ recoverable reasons).
    { intros H. apply recoverable_includes in H. congruence. }
    cbn [fst]. rewrite Hv. split; [split; [lia | contradiction] | lia].
Qed.

(** The recovery path: one [init] call, one retried validation, and a
    retry document whose [valid] is a boolean is accepted whatever the
    boolean is, because the retry is compared with the string "false". *)
Lemma tfValidate_recovery (r : ProcessResult) (retryRes : value) :
  recoverable reasons ->
  let validated :=
    t1 ++ [ECall Json (config_version provider)
             (validateParams root (["validate"; "-json"] ++ varArgs))] in
  let logged := validated ++ [ELog (LogDebug "Initializing Terraform")] in
  let initialized := logged ++ [ECall Exec (config_version provider) (initParams root)] in
  let final := fst (tfValidate rt W provider root variables t0) in
  terraform_exec W logged (config_version provider) (initParams root) = inr r ->
  terraform_json W initialized (config_version provider)
    (validateParams root (["validate"; "-json"] ++ varArgs)) = inr retryRes ->
  final = initialized ++ [ECall Json (config_version provider)
                            (validateParams root (["validate"; "-json"] ++ varArgs))]
  /\ initCalls final = S (initCalls t0)
  /\ validateCalls final = 2 + validateCalls t0
  /\ (forall b, getProp retryRes "valid" = inr (VBool b) ->
      snd (tfValidate rt W provider root variables t0) = Returned tt).
Proof.
  intros Hrec. cbv zeta. intros Hinit Hretry.
  apply recoverable_includes in Hrec.
  rewrite tfValidate_invalid. unfold afterInvalid.
  rewrite Hrec. cbv zeta. rewrite Hinit, Hretry. cbn [fst snd].
  pose proof validated_initCalls as Hi.
  pose proof validated_validateCalls as Hv.
  set (validated := t1 ++ [_]) in *. clearbody validated.
  unfold initCalls, validateCalls in *.
  repeat split.
  - rewrite !count_snoc, Hi. simpl. lia.
  - rewrite !count_snoc, Hv. simpl. lia.
  - intros b Hb. now rewrite Hb.
Qed.

End InvalidResult.

(** ** The status resolver *)

(** Case analysis on whatever the goal branches on next. *)
Ltac crunch :=
  repeat first
    [ reply
    | match goal with
      | |- context [if ?b then _ else _] => destruct b eqn:?
      end ].

(** [tfValidate] never runs the output command. *)
Lemma tfValidate_outputCalls (prov : TerraformProvider) (root : string)
    (variables : option object) (t : Trace) :
  outputCalls (fst (tfValidate rt W prov root variables t)) = outputCalls t.
Proof.
  unfold tfValidate, validateCall, initCall. run.
  destruct (prepareVariables rt W root variables t) as [t' o] eqn:Hp.
  pose proof (prepareVariables_count _ _ _ _ _ _ write_not_output Hp) as Hc.
  unfold outputCalls in *.
  destruct o as [varArgs|e|]; [|exact Hc|exact Hc].
  cbv zeta. crunch; cbn [fst]; rewrite ?count_snoc, Hc; simpl; lia.
Qed.

Lemma getTfOutputs_decoded (tfVersion root : string) (t : Trace)
    (res : value) (outs : object) :
  terraform_json W t tfVersion (outputParams root) = inr res ->
  mapValues res (fun v => getProp v "value") = inr outs ->
  getTfOutputs W tfVersion root t =
    (t ++ [ECall Json tfVersion (outputParams root)], Returned outs).
Proof.
  intros Hres Hdec. unfold getTfOutputs. run. now rewrite Hres, Hdec.
Qed.

Section Planned.

Variable p : GetTerraformStackStatusParams.
Variables t0 t1 t2 : Trace.
Variable varArgs : list string.
Variable plan : ProcessResult.

Hypothesis Hval :
  tfValidate rt W (provider p) (root p) (variables p) t0 = (t1, Returned tt).
Hypothesis Hvars :
  prepareVariables rt W (root p) (variables p)
    (t1 ++ [ELog (LogVerbose "terraform" "Running plan..." "active")])
  = (t2, Returned varArgs).
Hypothesis Hplan :
  terraform_exec W t2 (config_version (provider p))
    (planParams (root p) varArgs) = inr plan.

(** The trace once the plan has run. *)
Local Abbreviation planned :=
  (t2 ++ [ECall Exec (config_version (provider p)) (planParams (root p) varArgs)]).

Local Abbreviation tfVersion := (config_version (provider p)).

Ltac planned_start :=
  unfold getStackStatus, planCall; run;
  rewrite Hval; cbv zeta; rewrite Hvars, Hplan.

Lemma planned_outputCalls : outputCalls planned = outputCalls t0.
Proof.
  unfold outputCalls. rewrite count_snoc. simpl.
  rewrite (prepareVariables_count _ _ _ _ _ _ write_not_output Hvars).
  rewrite count_snoc. simpl.
  pose proof (tfValidate_outputCalls (provider p) (root p) (variables p) t0) as H.
  rewrite Hval in H. unfold outputCalls in H. simpl in H. lia.
Qed.

(** C4: when the plan exits with 0, [getStackStatus] fetches the outputs
    and, with the document of the output command decoded to [outs],
    returns [{ready: true, outputs: outs}]; when the plan exits with 1 it
    makes no further call and returns [{ready: false, outputs: {}}], so it
    does not throw. *)
Theorem getStackStatus_exit_0_1 :
  (exitCode plan = 0%Z ->
   forall (res : value) (outs : object),
     terraform_json W planned tfVersion (outputParams (root p)) = inr res ->
     mapValues res (fun v => getProp v "value") = inr outs ->
     getStackStatus rt W p t0 =
       ((planned ++ [ECall Json tfVersion (outputParams (root p))])
          ++ [ELog (EntrySetSuccess (chalk rt green "Stack up-to-date") true)],
        Returned (mkStatus true outs)))
  /\ (exitCode plan = 1%Z ->
      getStackStatus rt W p t0 =
        (planned ++ [ELog EntrySetError], Returned (mkStatus false []))).
Proof.
  split.
  - intros Hc res outs Hres Hdec. planned_start. rewrite Hc. cbn [Z.eqb].
    now rewrite (getTfOutputs_decoded _ _ _ _ _ Hres Hdec).
  - intros Hc. planned_start. now rewrite Hc.
Qed.

(** C2: when the plan exits with 2, [getStackStatus] marks the entry
    "Not up-to-date" and then follows [autoApply].  With [autoApply] it
    returns [{ready: false, outputs: {}}] and the output command has not
    been run, neither after the plan nor before.  Without [autoApply] it
    logs the warning [noAutoApplyMsg applyCommand], fetches the outputs
    and, with the document decoded to [outs], returns
    [{ready: true, outputs: outs}]. *)
Theorem getStackStatus_exit_2 :
  exitCode plan = 2%Z ->
  let marked := planned ++ [ELog (EntrySetWarn "Not up-to-date")] in
  let warned :=
    marked ++ [ELog (EntryWarn "warning" (noAutoApplyMsg rt (applyCommand p)))] in
  (autoApply p = true ->
   getStackStatus rt W p t0 = (marked, Returned (mkStatus false []))
   /\ outputCalls marked = outputCalls t0)
  /\ (autoApply p = false ->
      forall (res : value) (outs : object),
        terraform_json W warned tfVersion (outputParams (root p)) = inr res ->
        mapValues res (fun v => getProp v "value") = inr outs ->
        getStackStatus rt W p t0 =
          (warned ++ [ECall Json tfVersion (outputParams (root p))],
           Returned (mkStatus true outs))).
Proof.
  intros Hc. cbv zeta. split.
  - intros Hauto. split.
    + planned_start. now rewrite Hc, Hauto.
    + unfold outputCalls. rewrite count_snoc. simpl.
      pose proof planned_outputCalls as H. unfold outputCalls in H. lia.
  - intros Hauto res outs Hres Hdec. planned_start. rewrite Hc, Hauto.
    cbn [Z.eqb Pos.eqb]. cbv iota.
    now rewrite (getTfOutputs_decoded _ _ _ _ _ Hres Hdec).
Qed.

(** For the exit codes 0, 1 and 2 the only exception [getStackStatus] can
    raise after the plan is one raised by [getTfOutputs]. *)
Lemma getStackStatus_only_propagates (e : Exn) :
  exitCode plan = 0%Z \/ exitCode plan = 1%Z \/ exitCode plan = 2%Z ->
  snd (getStackStatus rt W p t0) = Threw e ->
  exists t, snd (getTfOutputs W tfVersion (root p) t) = Threw e.
Proof.
  intros Hc. planned_start.
  destruct Hc as [Hc|[Hc|Hc]]; rewrite Hc; cbn [Z.eqb Pos.eqb]; cbv iota.
  - destruct (getTfOutputs W tfVersion (root p) planned) as [t' [outs|x|]] eqn:Ho;
      cbn [snd]; try discriminate.
    intros [= ->]. exists planned. now rewrite Ho.
  - discriminate.
  - destruct (autoApply p); [discriminate|].
    match goal with
    | |- context [getTfOutputs W tfVersion (root p) ?t] =>
        destruct (getTfOutputs W tfVersion (root p) t) as [t' [outs|x|]] eqn:Ho;
        cbn [snd]; try discriminate;
        intros [= ->]; exists t; now rewrite Ho
    end.
Qed.

(** C3 (amended): once the plan has run, [getStackStatus] does not throw
    for the exit code 1, nor for 2 with [autoApply]: it returns
    [{ready: false, outputs: {}}].  For the exit code 0, and for 2 without
    [autoApply], it awaits [getTfOutputs] and ends as that does: it throws
    exactly when the output fetch throws, and what the fetch throws, and
    otherwise returns the fetched outputs with [ready: true].  For every
    other exit code it throws a [PluginError] that carries that exit code
    and the captured stderr and stdout. *)
Theorem getStackStatus_throws_iff_unexpected :
  let passedOn (o : Outcome object) : Outcome StackStatus :=
    match o with
    | Returned outs => Returned (mkStatus true outs)
    | Threw e => Threw e
    | Pending => Pending
    end in
  let warned :=
    (planned ++ [ELog (EntrySetWarn "Not up-to-date")])
      ++ [ELog (EntryWarn "warning" (noAutoApplyMsg rt (applyCommand p)))] in
  (exitCode plan = 1%Z ->
   exists t', getStackStatus rt W p t0 = (t', Returned (mkStatus false [])))
  /\ (exitCode plan = 2%Z -> autoApply p = true ->
      exists t', getStackStatus rt W p t0 = (t', Returned (mkStatus false [])))
  /\ (exitCode plan = 0%Z ->
      snd (getStackStatus rt W p t0)
      = passedOn (snd (getTfOutputs W tfVersion (root p) planned)))
  /\ (exitCode plan = 2%Z -> autoApply p = false ->
      snd (getStackStatus rt W p t0)
      = passedOn (snd (getTfOutputs W tfVersion (root p) warned)))
  /\ (exitCode plan <> 0%Z -> exitCode plan <> 1%Z -> exitCode plan <> 2%Z ->
      getStackStatus rt W p t0 =
        (planned ++ [ELog EntrySetError],
         Threw (PluginError
                  ("Unexpected exit code from `terraform plan`: "
                     ++ Number_toString (exitCode plan))%string
                  (exitCode plan) (stderr plan) (stdout plan)))).
Proof.
  cbv zeta. repeat split.
  - intros Hc. planned_start. rewrite Hc. cbn [Z.eqb Pos.eqb]. eauto.
  - intros Hc Hauto. planned_start. rewrite Hc, Hauto. cbn [Z.eqb Pos.eqb]. eauto.
  - intros Hc. planned_start. rewrite Hc. cbn [Z.eqb].
    now destruct (getTfOutputs W tfVersion (root p) planned) as [t' [outs|e|]].
  - intros Hc Hauto. planned_start. rewrite Hc, Hauto. cbn [Z.eqb Pos.eqb]. cbv iota.
    match goal with
    | |- context [getTfOutputs W tfVersion (root p) ?t] =>
        now destruct (getTfOutputs W tfVersion (root p) t) as [t' [outs|e|]]
    end.
  - intros H0 H1 H2. planned_start.
    apply Z.eqb_neq in H0, H1, H2. now rewrite H0, H1, H2.
Qed.

End Planned.

(** ** The apply executor *)

Lemma awaitClose_data (proc_stdout proc_stderr : bool)
    (before rest : list ProcEvent) (out err : string) :
  forallb isData before = true ->
  awaitClose proc_stdout proc_stderr (before ++ rest) out err =
  awaitClose proc_stdout proc_stderr rest
    (out ++ (if proc_stdout then stdoutOf before else ""))%string
    (err ++ (if proc_stderr then stderrOf before else ""))%string.
Proof.
  revert out err. induction before as [|ev before IH]; intros out err Hd.
  - simpl. destruct proc_stdout, proc_stderr; now rewrite !append_nil_r.
  - simpl in Hd. apply andb_true_iff in Hd as [Hev Hd].
    destruct ev as [data|data| |]; try discriminate; simpl; rewrite (IH _ _ Hd);
      destruct proc_stdout, proc_stderr; now rewrite ?append_assoc.
Qed.

Section Spawned.

Variable root : string.
Variable variables : option object.
Variable version : string.
Variables t0 t1 : Trace.
Variable varArgs : list string.
Variable proc : ChildProcess.
Variables before after : list ProcEvent.
Variable code : option Z.

Hypothesis Hvars :
  prepareVariables rt W root variables t0 = (t1, Returned varArgs).
Hypothesis Hspawn :
  terraform_spawn W t1 version (applyParams root varArgs) = inr proc.
Hypothesis Hemit : emitted proc = before ++ ProcClose code :: after.
Hypothesis Hdata : forallb isData before = true.

(** C6: when the spawned process, having emitted only data, closes with
    code 0, [applyStack] resolves; when it closes with any other code
    (or with none, being killed by a signal), [applyStack] rejects with a
    [RuntimeError] whose payload holds everything the process wrote to
    stdout and to stderr before closing, and the code. *)
Theorem applyStack_close :
  let out := if has_stdout proc then stdoutOf before else "" in
  let err := if has_stderr proc then stderrOf before else "" in
  let started :=
    (t1 ++ [ECall Spawn version (applyParams root varArgs)])
      ++ [ELog (LogInfo "→ Applying Terraform stack...")] in
  (code = Some 0%Z ->
   applyStack rt W root variables version t0 = (started, Returned tt))
  /\ (code <> Some 0%Z ->
      applyStack rt W root variables version t0 =
        (started,
         Threw (RuntimeError
                  ("Error when applying Terraform stack:" ++ nl ++ err)%string
                  out err code))).
Proof.
  cbv zeta.
  assert (Hrun : applyStack rt W root variables version t0 =
                 ((t1 ++ [ECall Spawn version (applyParams root varArgs)])
                    ++ [ELog (LogInfo "→ Applying Terraform stack...")],
                  awaitClose (has_stdout proc) (has_stderr proc)
                    [ProcClose code]
                    (if has_stdout proc then stdoutOf before else "")
                    (if has_stderr proc then stderrOf before else ""))).
  { unfold applyStack. run. rewrite Hvars, Hspawn, Hemit.
    rewrite (awaitClose_data _ _ _ _ _ _ Hdata). reflexivity. }
  rewrite Hrun. split.
  - intros ->. reflexivity.
  - intros Hc. cbn [awaitClose]. destruct code as [c|]; [|reflexivity].
    cbn [strictEquals].
    destruct (Z.eqb_spec c 0) as [->|Hne]; [congruence | reflexivity].
Qed.

End Spawned.

(** ** The module passthrough command *)

Lemma findByName_None (modules : list Module) (n : string) :
  findByName modules n = None <-> (forall m, In m modules -> name m <> n).
Proof.
  unfold findByName. split.
  - intros H m Hin Heq. apply (find_none _ _ H) in Hin.
    apply String.eqb_neq in Hin. contradiction.
  - intros H. destruct (find _ modules) as [m|] eqn:E; [|reflexivity].
    apply find_some in E as [Hin Heq]. apply String.eqb_eq in Heq.
    now apply H in Hin.
Qed.

Lemma includes_terraform (types : list string) :
  existsb (String.eqb "terraform") types = true <-> In "terraform" types.
Proof.
  rewrite existsb_exists. split.
  - intros [x [Hin Heq]]. apply String.eqb_eq in Heq. now subst.
  - intros Hin. exists "terraform". split; [assumption | apply String.eqb_refl].
Qed.

Lemma missing_argument (arg : option string) :
  truthy (argValue arg) = false <-> arg = None \/ arg = Some "".
Proof.
  destruct arg as [n|]; simpl.
  - rewrite negb_false_iff, String.eqb_eq. split.
    + intros ->. now right.
    + intros [H|H]; congruence.
  - split; auto.
Qed.

(** C8: the module command, run with the arguments [args], throws a
    [ParameterError] out of [findModule] exactly when the first argument
    is missing (absent, or the empty string, which [!name] also rejects),
    or no module bears that name, or the module of that name does not list
    "terraform" among its compatible types.  [findModule] throws nothing
    else, and the command then fails with that error before any external
    call. *)
Theorem findModule_ParameterError (modules : list Module) (args : list string) :
  let arg := nth_error args 0 in
  ((exists message detail,
       findModule rt modules arg = inl (ParameterError message detail))
   <-> (arg = None \/ arg = Some "")
       \/ (exists n, arg = Some n /\ forall m, In m modules -> name m <> n)
       \/ (exists n m, arg = Some n /\ findByName modules n = Some m
                       /\ ~ In "terraform" (compatibleTypes m)))
  /\ (forall e, findModule rt modules arg = inl e ->
                exists message detail, e = ParameterError message detail)
  /\ (forall commandName t e,
         findModule rt modules arg = inl e ->
         moduleCommandHandler rt W commandName args modules t = (t, Threw e)).
Proof.
  cbv zeta. generalize (nth_error args 0) at 1 2 3 4 5 6 as arg.
  intros arg. split; [split|split].
  - intros [message [detail H]]. unfold findModule in H.
    destruct (truthy (argValue arg)) eqn:Ht; cbn [negb] in H.
    + destruct arg as [n|]; [|discriminate]. cbn [argValue ToString] in H.
      destruct (findByName modules n) as [m|] eqn:Hf.
      * destruct (existsb _ (compatibleTypes m)) eqn:Hc; [discriminate|].
        right. right. exists n, m. repeat split; trivial.
        intros Hin. apply includes_terraform in Hin. congruence.
      * right. left. exists n. split; [reflexivity|]. now apply findByName_None.
    + left. now apply missing_argument.
  - unfold findModule. destruct (truthy (argValue arg)) eqn:Ht; cbn [negb]; [|eauto].
    destruct arg as [n|]; [|discriminate]. cbn [argValue ToString].
    intros [[H|H]|[[n' [[= <-] H]]|[n' [m [[= <-] [Hf Hc]]]]]].
    + discriminate.
    + injection H as ->. discriminate.
    + apply findByName_None in H. rewrite H. eauto.
    + rewrite Hf. destruct (existsb _ (compatibleTypes m)) eqn:Hx; cbn [negb]; [|eauto].
      apply includes_terraform in Hx. contradiction.
  - intros e. unfold findModule.
    destruct (truthy (argValue arg)); cbn [negb]; [|intros [= <-]; eauto].
    destruct (findByName modules _) as [m|]; [|intros [= <-]; eauto].
    destruct (existsb _ _); cbn [negb]; [discriminate | intros [= <-]; eauto].
  - intros commandName t e H. unfold moduleCommandHandler. run. now rewrite H.
Qed.

End Properties.

(** * The definitions at work *)

(** C1: the first validation says [valid: false] with the summary "Module
    not installed", [init] succeeds and the retried validation says
    [valid: false] again.  [tfValidate] makes one [init] call and one
    retried validation call, and then returns instead of throwing: the
    retry's [valid] is compared with the string "false", which the boolean
    never equals. *)
Theorem tfValidate_retry_still_invalid :
  getProp Sample.notInstalled "valid" = inr (VBool false)
  /\ tfValidate Sample.runtime Sample.stillInvalid Sample.provider "/stack" None []
     = ([ECall Json "0.12.7" (validateParams "/stack" ["validate"; "-json"]);
         ELog (LogDebug "Initializing Terraform");
         ECall Exec "0.12.7" (initParams "/stack");
         ECall Json "0.12.7" (validateParams "/stack" ["validate"; "-json"])],
        Returned tt).
Proof. split; reflexivity. Qed.

Example getTfOutputs_example :
  snd (getTfOutputs (Sample.steady Sample.outs 0) "0.12.7" "/stack" [])
  = Returned [("x", VNum 1); ("y", VStr "s")].
Proof. reflexivity. Qed.

Example prepareVariables_example :
  prepareVariables Sample.runtime Sample.stillInvalid "/stack"
    (Some [("region", VStr "eu"); ("replicas", VNum 3)]) []
  = ([EWriteFile "/stack/garden.tfvars.json"
        (Sample.stringify (VObj [("region", VStr "eu"); ("replicas", VNum 3)]))],
     Returned ["-var-file"; "/stack/garden.tfvars.json"]).
Proof. reflexivity. Qed.



Lemma init_iff_recoverable_witness :
  (0 < initCalls (fst (tfValidate Sample.runtime Sample.stillInvalid
                         Sample.provider "/stack" None []))
   <-> recoverable [VStr "Module not installed"])
  /\ initCalls (fst (tfValidate Sample.runtime Sample.stillInvalid
                       Sample.provider "/stack" None [])) <= 1.
Proof.
  exact (init_iff_recoverable Sample.runtime Sample.stillInvalid
           Sample.provider "/stack" None [] [] [] Sample.notInstalled
           _ [VStr "Module not installed"]
           eq_refl eq_refl eq_refl eq_refl eq_refl).
Defined.

Lemma getStackStatus_exit_0_1_witness :
  snd (getStackStatus Sample.runtime (Sample.steady Sample.outs 0)
         (Sample.params false) [])
  = Returned (mkStatus true [("x", VNum 1); ("y", VStr "s")])
  /\ snd (getStackStatus Sample.runtime (Sample.steady Sample.outs 1)
            (Sample.params false) [])
     = Returned (mkStatus false []).
Proof.
  split.
  - rewrite (proj1 (getStackStatus_exit_0_1 Sample.runtime
                      (Sample.steady Sample.outs 0) (Sample.params false)
                      [] _ _ [] (mkResult 0 "plan out" "plan err")
                      eq_refl eq_refl eq_refl)
               eq_refl Sample.outs [("x", VNum 1); ("y", VStr "s")]
               eq_refl eq_refl).
    reflexivity.
  - rewrite (proj2 (getStackStatus_exit_0_1 Sample.runtime
                      (Sample.steady Sample.outs 1) (Sample.params false)
                      [] _ _ [] (mkResult 1 "plan out" "plan err")
                      eq_refl eq_refl eq_refl)
               eq_refl).
    reflexivity.
Defined.

Lemma getStackStatus_exit_2_witness :
  (snd (getStackStatus Sample.runtime (Sample.steady Sample.outs 2)
          (Sample.params true) [])
   = Returned (mkStatus false [])
   /\ outputCalls (fst (getStackStatus Sample.runtime (Sample.steady Sample.outs 2)
                          (Sample.params true) [])) = 0)
  /\ snd (getStackStatus Sample.runtime (Sample.steady Sample.outs 2)
            (Sample.params false) [])
     = Returned (mkStatus true [("x", VNum 1); ("y", VStr "s")]).
Proof.
  split.
  - destruct (proj1 (getStackStatus_exit_2 Sample.runtime
                       (Sample.steady Sample.outs 2) (Sample.params true)
                       [] _ _ [] (mkResult 2 "plan out" "plan err")
                       eq_refl eq_refl eq_refl eq_refl)
                eq_refl) as [Hrun Hcount].
    rewrite Hrun. split; [reflexivity | exact Hcount].
  - rewrite (proj2 (getStackStatus_exit_2 Sample.runtime
                      (Sample.steady Sample.outs 2) (Sample.params false)
                      [] _ _ [] (mkResult 2 "plan out" "plan err")
                      eq_refl eq_refl eq_refl eq_refl)
               eq_refl Sample.outs [("x", VNum 1); ("y", VStr "s")]
               eq_refl eq_refl).
    reflexivity.
Defined.

Lemma getStackStatus_throws_iff_unexpected_witness :
  (exists t',
      getStackStatus Sample.runtime (Sample.steady Sample.outs 1)
        (Sample.params false) [] = (t', Returned (mkStatus false [])))
  /\ snd (getStackStatus Sample.runtime (Sample.steady Sample.outs 0)
            (Sample.params false) [])
     = Returned (mkStatus true [("x", VNum 1); ("y", VStr "s")])
  /\ snd (getStackStatus Sample.runtime (Sample.steady Sample.outs 3)
            (Sample.params false) [])
     = Threw (PluginError "Unexpected exit code from `terraform plan`: 3"
                3 "plan err" "plan out").
Proof.
  split; [|split].
  - exact (proj1 (getStackStatus_throws_iff_unexpected Sample.runtime
                    (Sample.steady Sample.outs 1) (Sample.params false)
                    [] _ _ [] (mkResult 1 "plan out" "plan err")
                    eq_refl eq_refl eq_refl) eq_refl).
  - rewrite (proj1 (proj2 (proj2 (getStackStatus_throws_iff_unexpected
                      Sample.runtime (Sample.steady Sample.outs 0)
                      (Sample.params false)
                      [] _ _ [] (mkResult 0 "plan out" "plan err")
                      eq_refl eq_refl eq_refl))) eq_refl).
    reflexivity.
  - rewrite (proj2 (proj2 (proj2 (proj2 (getStackStatus_throws_iff_unexpected
                      Sample.runtime (Sample.steady Sample.outs 3)
                      (Sample.params false)
                      [] _ _ [] (mkResult 3 "plan out" "plan err")
                      eq_refl eq_refl eq_refl)))));
      [reflexivity | discriminate | discriminate | discriminate].
Defined.

(** C3, counterexample: the plan exits with 0 and the output command
    fails, or the plan exits with 2 without [autoApply] and the output
    document holds a [null] entry, and [getStackStatus] throws. *)
Lemma getStackStatus_exit_0_throws :
  (terraform_exec (Sample.outputFails 0)
     [ECall Json "0.12.7" (validateParams "/stack" ["validate"; "-json"]);
      ELog (LogVerbose "terraform" "Running plan..." "active")]
     "0.12.7" (planParams "/stack" [])
   = inr (mkResult 0 "plan out" "plan err")
   /\ getStackStatus Sample.runtime (Sample.outputFails 0) (Sample.params false) []
      = ([ECall Json "0.12.7" (validateParams "/stack" ["validate"; "-json"]);
          ELog (LogVerbose "terraform" "Running plan..." "active");
          ECall Exec "0.12.7" (planParams "/stack" []);
          ECall Json "0.12.7" (outputParams "/stack")],
         Threw (OtherError "output")))
  /\ snd (getStackStatus Sample.runtime
            (Sample.steady (VObj [("x", VNull)]) 2) (Sample.params false) [])
     = Threw TypeError.
Proof. repeat split. Qed.

Lemma applyStack_close_witness :
  snd (applyStack Sample.runtime (Sample.spawning (Sample.chatty (Some 0%Z)))
         "/stack" None "0.12.7" [])
  = Returned tt
  /\ snd (applyStack Sample.runtime (Sample.spawning (Sample.chatty (Some 1%Z)))
            "/stack" None "0.12.7" [])
     = Threw (RuntimeError
                ("Error when applying Terraform stack:" ++ nl ++ "e1")%string
                "ab" "e1" (Some 1%Z)).
Proof.
  split.
  - rewrite (proj1 (applyStack_close Sample.runtime
                      (Sample.spawning (Sample.chatty (Some 0%Z)))
                      "/stack" None "0.12.7" [] [] []
                      (Sample.chatty (Some 0%Z))
                      [StdoutData "a"; StderrData "e1"; StdoutData "b"]
                      [StdoutData "late"] (Some 0%Z)
                      eq_refl eq_refl eq_refl eq_refl)
               eq_refl).
    reflexivity.
  - rewrite (proj2 (applyStack_close Sample.runtime
                      (Sample.spawning (Sample.chatty (Some 1%Z)))
                      "/stack" None "0.12.7" [] [] []
                      (Sample.chatty (Some 1%Z))
                      [StdoutData "a"; StderrData "e1"; StdoutData "b"]
                      [StdoutData "late"] (Some 1%Z)
                      eq_refl eq_refl eq_refl eq_refl));
      [reflexivity | discriminate].
Defined.

Example findModule_examples :
  let stack := mkModule "infra" "terraform" ["terraform"] "/p/infra"
                 (mkSpec "." None "0.12.7") in
  let web := mkModule "web" "container" ["container"] "/p/web"
               (mkSpec "." None "0.12.7") in
  findModule Sample.runtime [stack; web] (nth_error ["infra"; "-lock=false"] 0)
  = inr stack
  /\ findModule Sample.runtime [stack; web] (nth_error [] 0)
     = inl (ParameterError "The first command argument must be a module name."
              (DetailName None))
  /\ findModule Sample.runtime [stack; web] (nth_error ["db"] 0)
     = inl (ParameterError "Could not find module db." DetailEmpty)
  /\ findModule Sample.runtime [stack; web] (nth_error ["web"] 0)
     = inl (ParameterError "Module web is not a terraform module."
              (DetailModule "web" "container" ["container"])).
Proof. repeat split. Qed.

(** * More of the code *)

(** ** Traces only grow *)

Lemma grows_ret {A} (a : A) : grows (ret a).
Proof. intros t. exists []. simpl. now rewrite app_nil_r. Qed.

Lemma grows_throw {A} (e : Exn) : grows (@throw A e).
Proof. intros t. exists []. simpl. now rewrite app_nil_r. Qed.

Lemma grows_lift {A} (r : Exn + A) : grows (lift r).
Proof. intros t. exists []. unfold lift. destruct r; simpl; now rewrite app_nil_r. Qed.

Lemma grows_settle {A} (o : Outcome A) : grows (settle o).
Proof. intros t. exists []. simpl. now rewrite app_nil_r. Qed.

Lemma grows_log (l : LogCall) : grows (log l).
Proof. intros t. now exists [ELog l]. Qed.

Lemma grows_call {A} (e : Event) (reply : Trace -> Exn + A) : grows (call e reply).
Proof. intros t. exists [e]. unfold call. now destruct (reply t). Qed.

Lemma grows_bind {A B} (m : M A) (k : A -> M B) :
  grows m -> (forall a, grows (k a)) -> grows (bind m k).
Proof.
  intros Hm Hk t. unfold bind. destruct (Hm t) as [evs Hevs].
  destruct (m t) as [t' [a|e|]]; simpl in Hevs; subst t'.
  - destruct (Hk a (t ++ evs)) as [evs' Hevs'].
    exists (evs ++ evs'). now rewrite Hevs', app_assoc.
  - now exists evs.
  - now exists evs.
Qed.

(** Builds a proof of [grows] along the structure of the computation. *)
Ltac grow :=
  repeat first
    [ apply grows_ret | apply grows_throw | apply grows_lift
    | apply grows_settle | apply grows_log | apply grows_call
    | apply grows_bind; [|intros ?]
    | match goal with
      | |- grows (if ?b then _ else _) => destruct b
      end
    | progress cbv zeta ].

(** Case analysis on every reply and test the goal still waits for. *)
Ltac branches :=
  repeat first
    [ reply
    | match goal with
      | |- context [if ?b then _ else _] => destruct b eqn:?
      end ].

Section MoreProperties.

Variable rt : Runtime.
Variable W : World.

Lemma prepareVariables_grows (root : string) (v : option object) :
  grows (prepareVariables rt W root v).
Proof. unfold prepareVariables. grow. Qed.

Lemma tfValidate_grows (prov : TerraformProvider) (root : string)
    (v : option object) :
  grows (tfValidate rt W prov root v).
Proof.
  unfold tfValidate, validateCall, initCall.
  grow; apply prepareVariables_grows.
Qed.

Lemma getTfOutputs_grows (tfVersion root : string) :
  grows (getTfOutputs W tfVersion root).
Proof. unfold getTfOutputs. grow. Qed.

Lemma getStackStatus_grows (p : GetTerraformStackStatusParams) :
  grows (getStackStatus rt W p).
Proof.
  unfold getStackStatus, planCall.
  grow; first [ apply tfValidate_grows | apply prepareVariables_grows
              | apply getTfOutputs_grows ].
Qed.

Lemma prepareVariables_writes (root : string) (v : option object) (t : Trace) :
  writes (fst (prepareVariables rt W root v t)) <= S (writes t).
Proof.
  destruct (entriesOrEmpty v) as [|kv rest] eqn:E.
  - rewrite prepareVariables_none by assumption. simpl. lia.
  - rewrite prepareVariables_some by congruence. simpl.
    unfold writes. rewrite count_snoc. simpl. lia.
Qed.

Lemma write_not_plan (e : Event) : isWrite e = true -> isPlanCall e = false.
Proof. now destruct e. Qed.

Lemma write_not_spawn (e : Event) : isWrite e = true -> isSpawnCall e = false.
Proof. now destruct e. Qed.

Lemma write_not_apply (e : Event) : isWrite e = true -> isApplyCall e = false.
Proof. now destruct e. Qed.

(** How many calls of each kind one run of [tfValidate] adds. *)
Lemma tfValidate_counts (prov : TerraformProvider) (root : string)
    (v : option object) (t : Trace) :
  let final := fst (tfValidate rt W prov root v t) in
  writes final <= S (writes t)
  /\ validateCalls final <= 2 + validateCalls t
  /\ initCalls final <= S (initCalls t)
  /\ planCalls final = planCalls t
  /\ outputCalls final = outputCalls t
  /\ spawnCalls final = spawnCalls t
  /\ applyCalls final = applyCalls t.
Proof.
  cbv zeta. unfold tfValidate, validateCall, initCall. run.
  pose proof (prepareVariables_writes root v t) as Hw.
  destruct (prepareVariables rt W root v t) as [t' o] eqn:Hp.
  pose proof (prepareVariables_count rt W _ _ _ _ _ _ write_not_validate Hp) as Hv.
  pose proof (prepareVariables_count rt W _ _ _ _ _ _ write_not_init Hp) as Hi.
  pose proof (prepareVariables_count rt W _ _ _ _ _ _ write_not_plan Hp) as Hpl.
  pose proof (prepareVariables_count rt W _ _ _ _ _ _ write_not_output Hp) as Ho.
  pose proof (prepareVariables_count rt W _ _ _ _ _ _ write_not_spawn Hp) as Hs.
  pose proof (prepareVariables_count rt W _ _ _ _ _ _ write_not_apply Hp) as Ha.
  unfold writes, validateCalls, initCalls, planCalls, outputCalls,
    spawnCalls, applyCalls in *.
  simpl in Hw.
  destruct o as [varArgs|e|]; [|simpl; lia|simpl; lia].
  cbv zeta. branches; cbn [fst]; rewrite ?count_snoc; simpl; lia.
Qed.

Lemma count_zero_forallb (f : Event -> bool) (evs : Trace) :
  count f evs = 0 -> forallb (fun e => negb (f e)) evs = true.
Proof.
  unfold count. induction evs as [|e evs IH]; [reflexivity|].
  simpl. destruct (f e); simpl; [discriminate | exact IH].
Qed.

(** X1: whatever the collaborators reply, one run of [tfValidate] only
    adds to the trace, and what it adds holds at most one file write, at
    most two [validate] calls and at most one [init] call, and no [plan],
    [output] or [apply] call and no spawned child. *)
Theorem tfValidate_bounded (prov : TerraformProvider) (root : string)
    (v : option object) (t : Trace) :
  exists evs,
    fst (tfValidate rt W prov root v t) = t ++ evs
    /\ writes evs <= 1
    /\ validateCalls evs <= 2
    /\ initCalls evs <= 1
    /\ planCalls evs = 0
    /\ outputCalls evs = 0
    /\ spawnCalls evs = 0
    /\ applyCalls evs = 0.
Proof.
  destruct (tfValidate_grows prov root v t) as [evs Hevs].
  pose proof (tfValidate_counts prov root v t) as H. cbv zeta in H.
  rewrite Hevs in H.
  unfold writes, validateCalls, initCalls, planCalls, outputCalls,
    spawnCalls, applyCalls in *.
  rewrite !count_app in H.
  exists evs. split; [assumption | lia].
Qed.

Lemma strictEquals_false (v : value) :
  strictEquals v (VBool false) = true <-> v = VBool false.
Proof.
  destruct v as [| |b| | | |]; simpl; try (split; [discriminate | congruence]).
  destruct b; simpl; split; congruence.
Qed.

Lemma mapE_null (k : string) (ds : list value) :
  In VNull ds \/ In VUndefined ds ->
  mapE (fun d => getProp d k) ds = inl TypeError.
Proof.
  induction ds as [|d ds IH]; [intros [[]|[]]|].
  intros H. simpl.
  destruct d; simpl; try reflexivity;
    (rewrite IH; [reflexivity|]);
    destruct H as [[H|H]|[H|H]]; try discriminate; auto.
Qed.

Section FirstValidation.

Variable prov : TerraformProvider.
Variable root : string.
Variable variables : option object.
Variables t0 t1 : Trace.
Variable varArgs : list string.
Variable res : value.

Hypothesis Hvars :
  prepareVariables rt W root variables t0 = (t1, Returned varArgs).
Hypothesis Hres :
  terraform_json W t1 (config_version prov)
    (validateParams root (["validate"; "-json"] ++ varArgs)) = inr res.

Local Abbreviation validated :=
  (t1 ++ [ECall Json (config_version prov)
            (validateParams root (["validate"; "-json"] ++ varArgs))]).

(** X2: only the boolean [false] counts as invalid.  A document whose
    [valid] is [true], absent, or not a boolean at all (the string "false"
    included) is accepted: [tfValidate] returns after the single
    [validate] call, without inspecting diagnostics and without [init]. *)
Theorem tfValidate_accepts (valid : value) :
  getProp res "valid" = inr valid ->
  valid <> VBool false ->
  tfValidate rt W prov root variables t0 = (validated, Returned tt).
Proof.
  intros Hvalid Hne. unfold tfValidate, validateCall. run.
  rewrite Hvars. cbv zeta. rewrite Hres, Hvalid.
  destruct (strictEquals valid (VBool false)) eqn:E; [|reflexivity].
  apply strictEquals_false in E. contradiction.
Qed.

(** X3: a document that cannot be read as a validation result makes
    [tfValidate] fail with a [TypeError], not a [ConfigurationError],
    right after the first [validate] call: a [null] document, a
    [valid: false] document whose [diagnostics] is not an array, or one
    whose array holds a [null] entry. *)
Theorem tfValidate_unreadable :
  (res = VNull \/ res = VUndefined)
  \/ (getProp res "valid" = inr (VBool false)
      /\ exists d, getProp res "diagnostics" = inr d
                   /\ forall ds, d <> VArr ds)
  \/ (getProp res "valid" = inr (VBool false)
      /\ exists ds, getProp res "diagnostics" = inr (VArr ds)
                    /\ (In VNull ds \/ In VUndefined ds)) ->
  tfValidate rt W prov root variables t0 = (validated, Threw TypeError).
Proof.
  intros H. unfold tfValidate, validateCall. run.
  rewrite Hvars. cbv zeta. rewrite Hres.
  destruct H as [[-> | ->]|[[Hvalid [d [Hd Hnot]]]|[Hvalid [ds [Hd Hnull]]]]];
    try reflexivity; rewrite Hvalid; cbn [strictEquals Bool.eqb]; rewrite Hd.
  - destruct d; try reflexivity. now destruct (Hnot xs).
  - unfold arrayMap. now rewrite (mapE_null _ _ Hnull).
Qed.

End FirstValidation.

Section Recovery.

Variable prov : TerraformProvider.
Variable root : string.
Variable variables : option object.
Variables t0 t1 : Trace.
Variable varArgs : list string.
Variable res : value.
Variables ds reasons : list value.

Hypothesis Hvars :
  prepareVariables rt W root variables t0 = (t1, Returned varArgs).
Hypothesis Hres :
  terraform_json W t1 (config_version prov)
    (validateParams root (["validate"; "-json"] ++ varArgs)) = inr res.
Hypothesis Hvalid : getProp res "valid" = inr (VBool false).
Hypothesis Hdiag : getProp res "diagnostics" = inr (VArr ds).
Hypothesis Hsum : mapE (fun d => getProp d "summary") ds = inr reasons.
Hypothesis Hrec : recoverable reasons.

Local Abbreviation logged :=
  ((t1 ++ [ECall Json (config_version prov)
             (validateParams root (["validate"; "-json"] ++ varArgs))])
     ++ [ELog (LogDebug "Initializing Terraform")]).

Local Abbreviation initialized :=
  (logged ++ [ECall Exec (config_version prov) (initParams root)]).

(** X4: on the recovery path a failure of [init] (a non-zero exit or the
    300 s timeout, which are not ignored) is passed on as it is and
    validation is not retried; and once [init] has succeeded, a failure of
    the retried [validate] call is passed on as well. *)
Theorem tfValidate_recovery_fails (e : Exn) :
  (terraform_exec W logged (config_version prov) (initParams root) = inl e ->
   tfValidate rt W prov root variables t0 = (initialized, Threw e)
   /\ validateCalls initialized = S (validateCalls t0))
  /\ (forall r,
        terraform_exec W logged (config_version prov) (initParams root) = inr r ->
        terraform_json W initialized (config_version prov)
          (validateParams root (["validate"; "-json"] ++ varArgs)) = inl e ->
        tfValidate rt W prov root variables t0 =
          (initialized ++ [ECall Json (config_version prov)
                             (validateParams root (["validate"; "-json"] ++ varArgs))],
           Threw e)).
Proof.
  apply recoverable_includes in Hrec.
  rewrite (tfValidate_invalid rt W prov root variables t0 t1 varArgs res ds reasons
             Hvars Hres Hvalid Hdiag Hsum).
  unfold afterInvalid. rewrite Hrec. cbv zeta. split.
  - intros Hinit. rewrite Hinit. split; [reflexivity|].
    unfold validateCalls. rewrite !count_snoc. simpl.
    rewrite (prepareVariables_count rt W _ _ _ _ _ _ write_not_validate Hvars). lia.
  - intros r Hinit Hretry. now rewrite Hinit, Hretry.
Qed.

End Recovery.

(** ** The output decoder *)

Lemma mapE_entries (props : object) :
  Forall (fun kv => snd kv <> VNull /\ snd kv <> VUndefined) props ->
  mapE (fun kx : string * value =>
          let! y := getProp (snd kx) "value" in inr (fst kx, y)) props
  = inr (map (fun kv => (fst kv, field (snd kv) "value")) props).
Proof.
  induction 1 as [|kv props [Hnull Hundef] _ IH]; [reflexivity|].
  simpl. rewrite IH. unfold field.
  destruct (snd kv); simpl; try reflexivity; congruence.
Qed.

Lemma mapE_entries_null (props : object) :
  Exists (fun kv => snd kv = VNull \/ snd kv = VUndefined) props ->
  mapE (fun kx : string * value =>
          let! y := getProp (snd kx) "value" in inr (fst kx, y)) props
  = inl TypeError.
Proof.
  induction 1 as [kv props [H|H]|kv props _ IH]; simpl.
  - now rewrite H.
  - now rewrite H.
  - rewrite IH. now destruct (snd kv).
Qed.

(** X5: given an object as the document of [output -json],
    [getTfOutputs] makes that one call and, when no entry is [null],
    returns the entries under the same names and in the same order, each
    replaced by its [value] field ([undefined] where an entry has none);
    a [null] entry makes it throw a [TypeError]. *)
Theorem getTfOutputs_unwraps (tfVersion root : string) (t : Trace)
    (props : object) :
  terraform_json W t tfVersion (outputParams root) = inr (VObj props) ->
  let r := getTfOutputs W tfVersion root t in
  fst r = t ++ [ECall Json tfVersion (outputParams root)]
  /\ (Forall (fun kv => snd kv <> VNull /\ snd kv <> VUndefined) props ->
      snd r = Returned (map (fun kv => (fst kv, field (snd kv) "value")) props)
      /\ map fst (map (fun kv => (fst kv, field (snd kv) "value")) props)
         = map fst props)
  /\ (Exists (fun kv => snd kv = VNull \/ snd kv = VUndefined) props ->
      snd r = Threw TypeError).
Proof.
  intros Hres. cbv zeta. unfold getTfOutputs. run. rewrite Hres.
  unfold mapValues. split; [|split].
  - now destruct (mapE _ props).
  - intros Hall. rewrite (mapE_entries _ Hall). split; [reflexivity|].
    rewrite map_map. reflexivity.
  - intros Hex. now rewrite (mapE_entries_null _ Hex).
Qed.

(** ** The status resolver, whatever the collaborators reply *)

(** How many calls of each kind one run of [getStackStatus] adds. *)
Lemma getStackStatus_counts (p : GetTerraformStackStatusParams) (t : Trace) :
  let final := fst (getStackStatus rt W p t) in
  writes final <= 2 + writes t
  /\ validateCalls final <= 2 + validateCalls t
  /\ initCalls final <= S (initCalls t)
  /\ planCalls final <= S (planCalls t)
  /\ outputCalls final <= S (outputCalls t)
  /\ spawnCalls final = spawnCalls t
  /\ applyCalls final = applyCalls t.
Proof.
  cbv zeta. unfold getStackStatus, planCall, getTfOutputs. run.
  pose proof (tfValidate_counts (provider p) (root p) (variables p) t) as Hv.
  cbv zeta in Hv.
  destruct (tfValidate rt W (provider p) (root p) (variables p) t) as [t1 o1].
  cbn [fst] in Hv.
  destruct o1 as [[]|e|]; [|cbn [fst]; lia|cbn [fst]; lia].
  cbv zeta.
  pose proof (prepareVariables_writes (root p) (variables p)
                (t1 ++ [ELog (LogVerbose "terraform" "Running plan..." "active")]))
    as Hw.
  destruct (prepareVariables rt W (root p) (variables p) _) as [t2 o2] eqn:Hp.
  pose proof (prepareVariables_count rt W _ _ _ _ _ _ write_not_validate Hp) as H1.
  pose proof (prepareVariables_count rt W _ _ _ _ _ _ write_not_init Hp) as H2.
  pose proof (prepareVariables_count rt W _ _ _ _ _ _ write_not_plan Hp) as H3.
  pose proof (prepareVariables_count rt W _ _ _ _ _ _ write_not_output Hp) as H4.
  pose proof (prepareVariables_count rt W _ _ _ _ _ _ write_not_spawn Hp) as H5.
  pose proof (prepareVariables_count rt W _ _ _ _ _ _ write_not_apply Hp) as H6.
  unfold writes, validateCalls, initCalls, planCalls, outputCalls,
    spawnCalls, applyCalls in *.
  rewrite count_snoc in Hw, H1, H2, H3, H4, H5, H6. simpl in Hw, H1, H2, H3, H4, H5, H6.
  destruct o2 as [varArgs|e|]; [|cbn [fst]; lia|cbn [fst]; lia].
  branches; cbn [fst]; rewrite ?count_snoc; simpl; lia.
Qed.

(** X6: [getStackStatus] never applies anything, whatever [autoApply]
    says and whatever the collaborators reply: what it adds to the trace
    holds no [apply] call and no spawned child, and at most two file
    writes, two [validate] calls, one [init], one [plan] and one [output]
    call. *)
Theorem getStackStatus_never_applies (p : GetTerraformStackStatusParams)
    (t : Trace) :
  exists evs,
    fst (getStackStatus rt W p t) = t ++ evs
    /\ applyCalls evs = 0
    /\ spawnCalls evs = 0
    /\ writes evs <= 2
    /\ validateCalls evs <= 2
    /\ initCalls evs <= 1
    /\ planCalls evs <= 1
    /\ outputCalls evs <= 1.
Proof.
  destruct (getStackStatus_grows p t) as [evs Hevs].
  pose proof (getStackStatus_counts p t) as H. cbv zeta in H.
  rewrite Hevs in H.
  unfold writes, validateCalls, initCalls, planCalls, outputCalls,
    spawnCalls, applyCalls in *.
  rewrite !count_app in H.
  exists evs. split; [assumption | lia].
Qed.

(** X7: a failure of the validation is passed on by [getStackStatus] as
    it is, and the plan is not run. *)
Theorem getStackStatus_validation_fails (p : GetTerraformStackStatusParams)
    (t t1 : Trace) (e : Exn) :
  tfValidate rt W (provider p) (root p) (variables p) t = (t1, Threw e) ->
  getStackStatus rt W p t = (t1, Threw e) /\ planCalls t1 = planCalls t.
Proof.
  intros H. split.
  - unfold getStackStatus. run. now rewrite H.
  - pose proof (tfValidate_counts (provider p) (root p) (variables p) t) as Hc.
    cbv zeta in Hc. rewrite H in Hc. simpl in Hc. tauto.
Qed.

(** X8: in every status that [getStackStatus] returns, [outputs] is empty
    when [ready] is false, and the output command has then not been run;
    when [ready] is true the output command has been run exactly once. *)
Theorem getStackStatus_ready_outputs (p : GetTerraformStackStatusParams)
    (t t' : Trace) (status : StackStatus) :
  getStackStatus rt W p t = (t', Returned status) ->
  (ready status = false ->
   outputs status = [] /\ outputCalls t' = outputCalls t)
  /\ (ready status = true -> outputCalls t' = S (outputCalls t)).
Proof.
  unfold getStackStatus, planCall, getTfOutputs. run.
  pose proof (tfValidate_counts (provider p) (root p) (variables p) t) as Hv.
  cbv zeta in Hv.
  destruct (tfValidate rt W (provider p) (root p) (variables p) t) as [t1 o1].
  cbn [fst] in Hv.
  destruct o1 as [[]|e|]; [|discriminate|discriminate].
  cbv zeta.
  destruct (prepareVariables rt W (root p) (variables p) _) as [t2 o2] eqn:Hp.
  pose proof (prepareVariables_count rt W _ _ _ _ _ _ write_not_output Hp) as H4.
  unfold outputCalls in *. rewrite count_snoc in H4. simpl in H4.
  destruct o2 as [varArgs|e|]; [|discriminate|discriminate].
  branches; intros H; inversion H; subst; clear H; cbn [ready outputs];
    (split; [intros Hr; try discriminate Hr | intros Hr; try discriminate Hr]);
    rewrite ?count_snoc; simpl; try split; try reflexivity; lia.
Qed.

(** ** The apply executor, on its other terminal events *)

Section SpawnedChild.

Variable root : string.
Variable variables : option object.
Variable version : string.
Variables t0 t1 : Trace.
Variable varArgs : list string.
Variable proc : ChildProcess.

Hypothesis Hvars :
  prepareVariables rt W root variables t0 = (t1, Returned varArgs).
Hypothesis Hspawn :
  terraform_spawn W t1 version (applyParams root varArgs) = inr proc.

Local Abbreviation started :=
  ((t1 ++ [ECall Spawn version (applyParams root varArgs)])
     ++ [ELog (LogInfo "→ Applying Terraform stack...")]).

(** X9: an "error" event of the child that comes before its "close"
    rejects [applyStack] with that very error, whatever the child wrote
    before and whatever it emits afterwards, a "close" with code 0
    included. *)
Theorem applyStack_error_event (before after : list ProcEvent) (e : Exn) :
  emitted proc = before ++ ProcError e :: after ->
  forallb isData before = true ->
  applyStack rt W root variables version t0 = (started, Threw e).
Proof.
  intros Hemit Hdata. unfold applyStack. run.
  rewrite Hvars, Hspawn, Hemit.
  now rewrite (awaitClose_data _ _ _ _ _ _ Hdata).
Qed.

(** X10: [applyStack] has no timeout: as long as the child has emitted
    only data, neither "close" nor "error", the awaited promise is not
    settled. *)
Theorem applyStack_waits :
  forallb isData (emitted proc) = true ->
  applyStack rt W root variables version t0 = (started, Pending).
Proof.
  intros Hdata. unfold applyStack. run. rewrite Hvars, Hspawn.
  rewrite <- (app_nil_r (emitted proc)).
  now rewrite (awaitClose_data _ _ _ _ _ _ Hdata).
Qed.

End SpawnedChild.

(** X11: with a non-empty variable map, [applyStack] first writes the map
    to the variable file and then spawns
    [apply -auto-approve -input=false -var-file <that file>] in [root];
    a failing write is passed on before anything is spawned, and a failing
    spawn is passed on before anything is logged or awaited. *)
Theorem applyStack_materializes (root version : string) (V : object) (t : Trace) :
  V <> [] ->
  let file := resolve rt root "garden.tfvars.json" in
  let written := t ++ [EWriteFile file (JSON_stringify rt (VObj V))] in
  let spawned :=
    written ++ [ECall Spawn version
                  (mkRun ["apply"; "-auto-approve"; "-input=false"; "-var-file"; file]
                     root false None false)] in
  (forall e,
      fs_writeFile W t file (JSON_stringify rt (VObj V)) = inl e ->
      applyStack rt W root (Some V) version t = (written, Threw e))
  /\ (forall u e,
         fs_writeFile W t file (JSON_stringify rt (VObj V)) = inr u ->
         terraform_spawn W written version (applyParams root ["-var-file"; file])
         = inl e ->
         applyStack rt W root (Some V) version t = (spawned, Threw e))
  /\ (forall u proc,
         fs_writeFile W t file (JSON_stringify rt (VObj V)) = inr u ->
         terraform_spawn W written version (applyParams root ["-var-file"; file])
         = inr proc ->
         exists rest,
           fst (applyStack rt W root (Some V) version t) = spawned ++ rest).
Proof.
  intros HV. cbv zeta. unfold applyStack. run.
  rewrite (prepareVariables_some rt W root (Some V) t HV). cbn [entriesOrEmpty].
  repeat split.
  - intros e Hw. now rewrite Hw.
  - intros u e Hw Hs. now rewrite Hw, Hs.
  - intros u proc Hw Hs. rewrite Hw, Hs. eexists [_]. reflexivity.
Qed.

(** ** The passthrough commands *)

(** X12: when [findModule] returns, the module it returns is one of the
    given modules, bears the name given as first argument, which is not
    empty, and lists "terraform" among its compatible types. *)
Theorem findModule_returns (modules : list Module) (arg : option string)
    (m : Module) :
  findModule rt modules arg = inr m ->
  In m modules
  /\ arg = Some (name m)
  /\ name m <> ""
  /\ In "terraform" (compatibleTypes m).
Proof.
  unfold findModule.
  destruct (truthy (argValue arg)) eqn:Ht; cbn [negb]; [|discriminate].
  destruct arg as [n|]; [|discriminate]. cbn [argValue ToString].
  destruct (findByName modules n) as [m'|] eqn:Hf; [|discriminate].
  destruct (existsb _ (compatibleTypes m')) eqn:Hc; cbn [negb]; [|discriminate].
  intros [= ->]. unfold findByName in Hf. apply find_some in Hf as [Hin Hname].
  apply String.eqb_eq in Hname. subst n.
  repeat split; trivial.
  - intros Hempty. rewrite Hempty in Ht. discriminate.
  - now apply includes_terraform.
Qed.

(** X13: the module command, given [moduleName :: rest] with a module
    that [findModule] accepts, materializes that module's own variables
    under [join(module.path, module.spec.root)] and then makes a single
    call: [commandName], the variable arguments and [rest], attached to
    the terminal, with the module's terraform version.  The module name
    itself is not forwarded, and the call's failure is the command's. *)
Theorem moduleCommandHandler_forwards (commandName moduleName : string)
    (rest : list string) (modules : list Module) (m : Module)
    (t t1 : Trace) (varArgs : list string) :
  findModule rt modules (Some moduleName) = inr m ->
  let dir := path_join rt (path m) (spec_root (spec m)) in
  prepareVariables rt W dir (spec_variables (spec m)) t = (t1, Returned varArgs) ->
  let params := passthroughParams dir ([commandName] ++ varArgs ++ rest) in
  moduleCommandHandler rt W commandName (moduleName :: rest) modules t =
    (t1 ++ [ECall SpawnAndWait (spec_version (spec m)) params],
     match terraform_spawnAndWait W t1 (spec_version (spec m)) params with
     | inl e => Threw e
     | inr _ => Returned tt
     end).
Proof.
  intros Hfind dir Hvars params. unfold moduleCommandHandler. run.
  cbn [nth_error]. rewrite Hfind. cbv zeta. fold dir. rewrite Hvars.
  cbn [skipn]. fold params.
  now destruct (terraform_spawnAndWait W t1 _ params).
Qed.

(** X14: the root command fails with a [ConfigurationError], before any
    file is written or process started, when the provider has no
    [initRoot] (absent or empty).  With one, it materializes the
    provider's variables under [join(projectRoot, initRoot)] and makes a
    single call that forwards every argument after [commandName] and the
    variable arguments. *)
Theorem rootCommandHandler_spec (commandName : string) (ctx : PluginContext)
    (args : list string) (t : Trace) :
  let prov := ctx_provider ctx in
  ((config_initRoot prov = None \/ config_initRoot prov = Some "") ->
   exists message detail,
     rootCommandHandler rt W commandName ctx args t
     = (t, Threw (ConfigurationError message detail)))
  /\ (forall initRoot t1 varArgs,
         config_initRoot prov = Some initRoot ->
         initRoot <> "" ->
         let dir := path_join rt (projectRoot ctx) initRoot in
         prepareVariables rt W dir (config_variables prov) t
         = (t1, Returned varArgs) ->
         let params := passthroughParams dir ([commandName] ++ varArgs ++ args) in
         rootCommandHandler rt W commandName ctx args t =
           (t1 ++ [ECall SpawnAndWait (config_version prov) params],
            match terraform_spawnAndWait W t1 (config_version prov) params with
            | inl e => Threw e
            | inr _ => Returned tt
            end)).
Proof.
  cbv zeta. split.
  - intros H. unfold rootCommandHandler. cbv zeta.
    apply missing_argument in H. rewrite H. cbn [negb]. unfold throw. eauto.
  - intros initRoot t1 varArgs Hroot Hne Hvars.
    unfold rootCommandHandler. cbv zeta. rewrite Hroot.
    cbn [argValue truthy ToString].
    destruct (String.eqb_spec initRoot "") as [->|_]; [congruence|].
    cbn [negb]. run. rewrite Hvars.
    now destruct (terraform_spawnAndWait W t1 _ _).
Qed.

End MoreProperties.

(** * The added properties at work *)

Lemma tfValidate_accepts_witness :
  tfValidate Sample.runtime (Sample.steady Sample.outs 0) Sample.provider
    "/stack" None []
  = ([ECall Json "0.12.7" (validateParams "/stack" ["validate"; "-json"])],
     Returned tt).
Proof.
  apply (tfValidate_accepts Sample.runtime (Sample.steady Sample.outs 0)
           Sample.provider "/stack" None [] [] []
           (VObj [("valid", VBool true); ("diagnostics", VArr [])])
           eq_refl eq_refl (VBool true) eq_refl).
  discriminate.
Defined.

Lemma tfValidate_unreadable_witness :
  tfValidate Sample.runtime Sample.malformed Sample.provider "/stack" None []
  = ([ECall Json "0.12.7" (validateParams "/stack" ["validate"; "-json"])],
     Threw TypeError).
Proof.
  apply (tfValidate_unreadable Sample.runtime Sample.malformed
           Sample.provider "/stack" None [] [] [] Sample.noDiagnostics
           eq_refl eq_refl).
  right. left. split; [reflexivity|].
  exists VUndefined. split; [reflexivity | discriminate].
Defined.

Lemma tfValidate_recovery_fails_witness :
  snd (tfValidate Sample.runtime Sample.initFails Sample.provider "/stack" None [])
  = Threw (OtherError "exec").
Proof.
  assert (Hrec : recoverable [VStr "Module not installed"]).
  { exists (VStr "Module not installed"). split; [now left | now right]. }
  rewrite (proj1 (proj1 (tfValidate_recovery_fails Sample.runtime Sample.initFails
                           Sample.provider "/stack" None [] [] []
                           Sample.notInstalled _ [VStr "Module not installed"]
                           eq_refl eq_refl eq_refl eq_refl eq_refl Hrec
                           (OtherError "exec"))
                    eq_refl)).
  reflexivity.
Defined.

Lemma getTfOutputs_unwraps_witness :
  snd (getTfOutputs (Sample.steady Sample.outs 0) "0.12.7" "/stack" [])
  = Returned [("x", VNum 1); ("y", VStr "s")].
Proof.
  apply (proj1 (proj2 (getTfOutputs_unwraps (Sample.steady Sample.outs 0)
                         "0.12.7" "/stack" []
                         [("x", VObj [("value", VNum 1)]);
                          ("y", VObj [("value", VStr "s")])]
                         eq_refl))).
  repeat constructor; discriminate.
Defined.

Lemma getStackStatus_validation_fails_witness :
  (exists message,
      snd (getStackStatus Sample.runtime Sample.unrecoverable (Sample.params true) [])
      = Threw (ConfigurationError message Sample.otherError))
  /\ planCalls (fst (getStackStatus Sample.runtime Sample.unrecoverable
                       (Sample.params true) [])) = 0.
Proof.
  destruct (getStackStatus_validation_fails Sample.runtime Sample.unrecoverable
              (Sample.params true) [] _ _ eq_refl) as [Hrun Hplan].
  rewrite Hrun. split; [eexists; reflexivity | exact Hplan].
Defined.

Lemma getStackStatus_ready_outputs_witness :
  outputCalls (fst (getStackStatus Sample.runtime (Sample.steady Sample.outs 0)
                      (Sample.params false) [])) = 1
  /\ outputCalls (fst (getStackStatus Sample.runtime (Sample.steady Sample.outs 2)
                         (Sample.params true) [])) = 0.
Proof.
  split.
  - exact (proj2 (getStackStatus_ready_outputs Sample.runtime
                    (Sample.steady Sample.outs 0) (Sample.params false)
                    [] _ _ eq_refl) eq_refl).
  - exact (proj2 (proj1 (getStackStatus_ready_outputs Sample.runtime
                           (Sample.steady Sample.outs 2) (Sample.params true)
                           [] _ _ eq_refl) eq_refl)).
Defined.

Lemma applyStack_error_event_witness :
  snd (applyStack Sample.runtime (Sample.spawning Sample.failing)
         "/stack" None "0.12.7" [])
  = Threw (OtherError "ENOENT").
Proof.
  rewrite (applyStack_error_event Sample.runtime (Sample.spawning Sample.failing)
             "/stack" None "0.12.7" [] [] [] Sample.failing eq_refl eq_refl
             [StdoutData "a"] [ProcClose (Some 0%Z)] (OtherError "ENOENT")
             eq_refl eq_refl).
  reflexivity.
Defined.

Lemma applyStack_waits_witness :
  snd (applyStack Sample.runtime (Sample.spawning Sample.silent)
         "/stack" None "0.12.7" [])
  = Pending.
Proof.
  rewrite (applyStack_waits Sample.runtime (Sample.spawning Sample.silent)
             "/stack" None "0.12.7" [] [] [] Sample.silent eq_refl eq_refl
             eq_refl).
  reflexivity.
Defined.

Lemma applyStack_materializes_witness :
  exists rest,
    fst (applyStack Sample.runtime (Sample.spawning Sample.idle) "/stack"
           (Some [("region", VStr "eu")]) "0.12.7" [])
    = [EWriteFile "/stack/garden.tfvars.json"
         (Sample.stringify (VObj [("region", VStr "eu")]));
       ECall Spawn "0.12.7"
         (mkRun ["apply"; "-auto-approve"; "-input=false"; "-var-file";
                 "/stack/garden.tfvars.json"]
            "/stack" false None false)]
      ++ rest.
Proof.
  assert (HV : [("region", VStr "eu")] <> ([] : object)) by discriminate.
  exact (proj2 (proj2 (applyStack_materializes Sample.runtime
                         (Sample.spawning Sample.idle) "/stack" "0.12.7"
                         [("region", VStr "eu")] [] HV))
           tt Sample.idle eq_refl eq_refl).
Defined.

Lemma findModule_returns_witness :
  In Sample.infra [Sample.infra]
  /\ Some "infra" = Some (name Sample.infra)
  /\ name Sample.infra <> ""
  /\ In "terraform" (compatibleTypes Sample.infra).
Proof.
  exact (findModule_returns Sample.runtime [Sample.infra] (Some "infra")
           Sample.infra eq_refl).
Defined.

Lemma moduleCommandHandler_forwards_witness :
  moduleCommandHandler Sample.runtime (Sample.spawning Sample.idle) "plan"
    ["infra"; "-out=tfplan"] [Sample.infra] []
  = ([EWriteFile "/p/infra/tf/garden.tfvars.json"
        (Sample.stringify (VObj [("region", VStr "eu")]));
      ECall SpawnAndWait "0.12.7"
        (mkRun ["plan"; "-var-file"; "/p/infra/tf/garden.tfvars.json"; "-out=tfplan"]
           "/p/infra/tf" false None true)],
     Returned tt).
Proof.
  exact (moduleCommandHandler_forwards Sample.runtime
           (Sample.spawning Sample.idle) "plan" "infra" ["-out=tfplan"]
           [Sample.infra] Sample.infra [] _ _ eq_refl eq_refl).
Defined.

Example rootCommandHandler_example :
  rootCommandHandler Sample.runtime (Sample.spawning Sample.idle) "apply"
    Sample.rooted ["-target=a"] []
  = ([ECall SpawnAndWait "0.12.7"
        (mkRun ["apply"; "-target=a"] "/p/tf" false None true)],
     Returned tt)
  /\ snd (rootCommandHandler Sample.runtime (Sample.spawning Sample.idle) "apply"
            (mkContext "/p" Sample.provider) ["-target=a"] [])
     = Threw (ConfigurationError "terraform provider does not have an initRoot configured"
                (VObj [("config", VObj [("version", VStr "0.12.7")])])).
Proof. split; reflexivity. Qed.
